(** * gs_usb: host-side driver for gs_usb (candleLight) CAN adapters

    A shallow embedding of the Python sources

      - [gs_usb/constants.py]   CAN id flags and masks,
      - [gs_usb/gs_usb_frame.py] the [GsUsbFrame] class,
      - [gs_usb/gs_usb.py]      the [GsUsb] device class,
      - [gs_usb.py] (legacy)    [GsUsb.parse_err_frame] and the CAN_ERR_ flags,

    together with the part of Python's [struct] module these files call
    ([pack] and [unpack] with the formats "II", "5I", "4B2I" and "2I12BI").

    Python integers are unbounded, so they are [Z]; the bitwise operators
    [&], [|] and [<<] are [Z.land], [Z.lor] and [Z.shiftl].  A [bytes]
    object or a pyusb [array('B')] is a [list Z] of values in 0..255.
    Exceptions are an explicit error result; the calls made on the pyusb
    device handle are recorded in a history, and what the handle answers is
    an arbitrary function of the history and the call. *)

From Stdlib Require Import ZArith String Ascii Bool Lia DecimalString List.
From Stdlib Require Strings.Byte.
Import ListNotations.
Local Open Scope Z_scope.

(** ** Exceptions and outcomes *)

(** The exception classes that occur: [usb.core.USBError], [struct.error],
    and any other exception a device handle may raise (pyusb raises
    [NotImplementedError] and [ValueError] from some backends). *)
Inductive exn : Type :=
| USBError
| StructError
| OtherException (name : string).

Inductive outcome (A : Type) : Type :=
| Returned (a : A)
| Raised (e : exn).
Arguments Returned {A} a.
Arguments Raised {A} e.

Definition is_USBError (e : exn) : bool :=
  match e with USBError => true | _ => false end.

(** ** Python's [struct] module, native mode

    A format string without a byte-order prefix packs in native order with
    native alignment.  The embedding takes the host to be little-endian with
    a 4-byte, 4-aligned [unsigned int], which is the case on every platform
    pyusb runs on (x86, x86-64, ARM). *)
Module Struct.

Inductive code : Type :=
| CodeI   (* 'I': unsigned int, 4 bytes, aligned to 4 *)
| CodeB.  (* 'B': unsigned char, 1 byte *)

Definition code_of_ascii (c : ascii) : option code :=
  if Ascii.eqb c "I" then Some CodeI
  else if Ascii.eqb c "B" then Some CodeB
  else None.

Definition digit_of_ascii (c : ascii) : option nat :=
  let n := nat_of_ascii c in
  if andb (Nat.leb 48 n) (Nat.leb n 57) then Some (n - 48)%nat else None.

(** A format is a sequence of codes, each with an optional decimal repeat
    count.  [count] is the repeat count read so far, if any. *)
Fixpoint parse_format (fmt : string) (count : option nat) : option (list code) :=
  match fmt with
  | EmptyString =>
      match count with
      | None => Some []
      | Some _ => None   (* repeat count given without format specifier *)
      end
  | String c rest =>
      match digit_of_ascii c with
      | Some d =>
          parse_format rest
            (Some (10 * match count with Some n => n | None => 0 end + d)%nat)
      | None =>
          match code_of_ascii c with
          | Some k =>
              match parse_format rest None with
              | Some ks =>
                  Some (repeat k match count with Some n => n | None => 1%nat end
                          ++ ks)
              | None => None
              end
          | None => None   (* bad char in struct format *)
          end
      end
  end.

Definition size_of (k : code) : Z :=
  match k with CodeI => 4 | CodeB => 1 end.

Definition align_of (k : code) : Z :=
  match k with CodeI => 4 | CodeB => 1 end.

(** Number of pad bytes inserted before an item of code [k] at [offset]. *)
Definition padding (k : code) (offset : Z) : Z :=
  (align_of k - offset mod align_of k) mod align_of k.

Fixpoint calcsize_codes (ks : list code) (offset : Z) : Z :=
  match ks with
  | [] => offset
  | k :: rest => calcsize_codes rest (offset + padding k offset + size_of k)
  end.

Definition in_range (k : code) (v : Z) : bool :=
  match k with
  | CodeI => (0 <=? v) && (v <=? 4294967295)
  | CodeB => (0 <=? v) && (v <=? 255)
  end.

(** Little-endian bytes of [v], [n] of them. *)
Fixpoint le_bytes (n : nat) (v : Z) : list Z :=
  match n with
  | O => []
  | S m => v mod 256 :: le_bytes m (v / 256)
  end.

Fixpoint le_value (bs : list Z) : Z :=
  match bs with
  | [] => 0
  | b :: rest => b + 256 * le_value rest
  end.

Fixpoint pack_codes (ks : list code) (args : list Z) (offset : Z)
  : outcome (list Z) :=
  match ks, args with
  | [], [] => Returned []
  | k :: ks', v :: args' =>
      if in_range k v then
        match pack_codes ks' args' (offset + padding k offset + size_of k) with
        | Returned bs =>
            Returned (repeat 0 (Z.to_nat (padding k offset))
                        ++ le_bytes (Z.to_nat (size_of k)) v ++ bs)
        | Raised e => Raised e
        end
      else Raised StructError   (* argument out of range *)
  | _, _ => Raised StructError  (* pack expected N items for packing *)
  end.

(** [struct.pack(fmt, *args)] *)
Definition pack (fmt : string) (args : list Z) : outcome (list Z) :=
  match parse_format fmt None with
  | Some ks => pack_codes ks args 0
  | None => Raised StructError
  end.

Fixpoint unpack_codes (ks : list code) (buf : list Z) (offset : Z) : list Z :=
  match ks with
  | [] => []
  | k :: ks' =>
      let buf' := skipn (Z.to_nat (padding k offset)) buf in
      le_value (firstn (Z.to_nat (size_of k)) buf')
        :: unpack_codes ks' (skipn (Z.to_nat (size_of k)) buf')
             (offset + padding k offset + size_of k)
  end.

(** [struct.unpack(fmt, buffer)]: the buffer's size must equal
    [calcsize(fmt)], otherwise [struct.error] is raised. *)
Definition unpack (fmt : string) (buf : list Z) : outcome (list Z) :=
  match parse_format fmt None with
  | Some ks =>
      if Z.of_nat (length buf) =? calcsize_codes ks 0
      then Returned (unpack_codes ks buf 0)
      else Raised StructError   (* unpack requires a buffer of N bytes *)
  | None => Raised StructError
  end.

End Struct.

(** ** gs_usb/constants.py *)

Definition CAN_EFF_FLAG : Z := 0x80000000.
Definition CAN_RTR_FLAG : Z := 0x40000000.
Definition CAN_ERR_FLAG : Z := 0x20000000.

Definition CAN_SFF_MASK : Z := 0x000007FF.
Definition CAN_EFF_MASK : Z := 0x1FFFFFFF.
Definition CAN_ERR_MASK : Z := 0x1FFFFFFF.

(** ** gs_usb/gs_usb_frame.py *)

Definition GS_USB_ECHO_ID : Z := 0.
Definition GS_USB_NONE_ECHO_ID : Z := 0xFFFFFFFF.
Definition GS_USB_FRAME_SIZE : Z := 24.

(** The attributes of a [GsUsbFrame] instance. *)
Record GsUsbFrame : Type := mkFrame {
  echo_id : Z;
  can_id : Z;
  can_dlc : Z;
  channel : Z;
  flags : Z;
  reserved : Z;
  data : list Z;
  timestamp_us : Z
}.

(** Python's [bool(n)] for an integer. *)
Definition py_bool (n : Z) : bool := negb (n =? 0).

(** The [data] argument of the constructor is a list of integers or a
    [bytes] object. *)
Inductive data_arg : Type :=
| DataList (l : list Z)
| DataBytes (b : list Byte.byte).

(** [list(data)] for a [bytes] object: its bytes as integers 0..255. *)
Definition list_of_bytes (b : list Byte.byte) : list Z :=
  map (fun x => Z.of_N (Byte.to_N x)) b.

(** [[0] * n]: the empty list when [n] is negative. *)
Definition zeros (n : Z) : list Z := repeat 0 (Z.to_nat n).

(** [GsUsbFrame.__init__(self, can_id=0, data=[])] *)
Definition GsUsbFrame_init (can_id : Z) (data : data_arg) : GsUsbFrame :=
  let data :=
    match data with
    | DataBytes b => list_of_bytes b
    | DataList l => l
    end in
  {| echo_id := GS_USB_ECHO_ID;
     can_id := can_id;
     channel := 0;
     flags := 0;
     reserved := 0;
     timestamp_us := 0;
     data := data ++ zeros (8 - Z.of_nat (length data));
     can_dlc := Z.of_nat (length data) |}.

Definition arbitration_id (self : GsUsbFrame) : Z :=
  Z.land (can_id self) CAN_EFF_MASK.

Definition is_extended_id (self : GsUsbFrame) : bool :=
  py_bool (Z.land (can_id self) CAN_EFF_FLAG).

Definition is_remote_frame (self : GsUsbFrame) : bool :=
  py_bool (Z.land (can_id self) CAN_RTR_FLAG).

Definition is_error_frame (self : GsUsbFrame) : bool :=
  py_bool (Z.land (can_id self) CAN_ERR_FLAG).

(** [GsUsbFrame.__sizeof__] *)
Definition sizeof_frame (self : GsUsbFrame) : Z := GS_USB_FRAME_SIZE.

(** ** The pyusb device handle

    [GsUsb] holds a [usb.core.Device] in [self.gs_usb] and calls six of its
    methods.  A call is recorded with its arguments. *)

(** The last argument of [ctrl_transfer], [data_or_wLength]: the payload of
    an OUT transfer or the number of bytes to read of an IN transfer. *)
Inductive ctrl_data : Type :=
| PayloadOut (payload : list Z)
| LengthIn (wLength : Z).

Inductive call : Type :=
| CallReset
| CallIsKernelDriverActive (interface : Z)
| CallDetachKernelDriver (interface : Z)
| CallCtrlTransfer (bmRequestType bRequest wValue wIndex : Z)
                   (data_or_wLength : ctrl_data)
| CallWrite (endpoint : Z) (payload : list Z)
| CallRead (endpoint size timeout : Z).

(** What a device handle does at each call, given the calls made before:
    it returns or raises.  [ctrl_transfer] returns the bytes read (for an
    OUT transfer pyusb returns the number of bytes written, which the
    driver never looks at); [write] returns the number of bytes written. *)
Record UsbDevice : Type := {
  dev_reset : list call -> outcome unit;
  dev_is_kernel_driver_active : list call -> Z -> outcome bool;
  dev_detach_kernel_driver : list call -> Z -> outcome unit;
  dev_ctrl_transfer :
    list call -> Z -> Z -> Z -> Z -> ctrl_data -> outcome (list Z);
  dev_write : list call -> Z -> list Z -> outcome Z;
  dev_read : list call -> Z -> Z -> Z -> outcome (list Z)
}.

(** A method of [GsUsb]: a computation over the device handle and the
    history of calls, which returns or raises. *)
Definition io (A : Type) : Type :=
  UsbDevice -> list call -> outcome A * list call.

Definition ret {A} (a : A) : io A := fun _ h => (Returned a, h).

Definition raise {A} (e : exn) : io A := fun _ h => (Raised e, h).

Definition bind {A B} (m : io A) (k : A -> io B) : io B :=
  fun dev h =>
    match m dev h with
    | (Returned a, h') => k a dev h'
    | (Raised e, h') => (Raised e, h')
    end.

(** A pure computation that may raise ([pack], [unpack]). *)
Definition lift {A} (o : outcome A) : io A := fun _ h => (o, h).

(** [try: m  except usb.core.USBError: handler] *)
Definition try_except_USBError {A} (m : io A) (handler : io A) : io A :=
  fun dev h =>
    match m dev h with
    | (Returned a, h') => (Returned a, h')
    | (Raised e, h') =>
        if is_USBError e then handler dev h' else (Raised e, h')
    end.

Declare Scope io_scope.
Delimit Scope io_scope with io.
Notation "x <- m ;; k" := (bind m (fun x => k))
  (at level 61, m at next level, right associativity) : io_scope.
Notation "m ;; k" := (bind m (fun _ => k))
  (at level 61, right associativity) : io_scope.
Local Open Scope io_scope.

Definition reset : io unit :=
  fun dev h => (dev_reset dev h, h ++ [CallReset]).

Definition is_kernel_driver_active (interface : Z) : io bool :=
  fun dev h => (dev_is_kernel_driver_active dev h interface,
                h ++ [CallIsKernelDriverActive interface]).

Definition detach_kernel_driver (interface : Z) : io unit :=
  fun dev h => (dev_detach_kernel_driver dev h interface,
                h ++ [CallDetachKernelDriver interface]).

Definition ctrl_transfer (bmRequestType bRequest wValue wIndex : Z)
    (data_or_wLength : ctrl_data) : io (list Z) :=
  fun dev h =>
    (dev_ctrl_transfer dev h bmRequestType bRequest wValue wIndex
       data_or_wLength,
     h ++ [CallCtrlTransfer bmRequestType bRequest wValue wIndex
             data_or_wLength]).

Definition usb_write (endpoint : Z) (payload : list Z) : io Z :=
  fun dev h => (dev_write dev h endpoint payload,
                h ++ [CallWrite endpoint payload]).

Definition usb_read (endpoint size timeout : Z) : io (list Z) :=
  fun dev h => (dev_read dev h endpoint size timeout,
                h ++ [CallRead endpoint size timeout]).

(** ** Strings: [str.lower] and [in] on ASCII strings, [str] of numbers *)

Definition lower_ascii (c : ascii) : ascii :=
  let n := nat_of_ascii c in
  if andb (Nat.leb 65 n) (Nat.leb n 90) then ascii_of_nat (n + 32) else c.

Fixpoint lower (s : string) : string :=
  match s with
  | EmptyString => EmptyString
  | String c rest => String (lower_ascii c) (lower rest)
  end.

(** [sub in s] *)
Definition str_in (sub s : string) : bool :=
  match String.index 0 sub s with Some _ => true | None => false end.

(** [str(n)] for a non-negative integer. *)
Definition str_int (n : Z) : string :=
  NilZero.string_of_uint (N.to_uint (Z.to_N n)).

(** [str(n / 10)] for an integer [0 <= n < 2^32].  [n / 10] is Python's
    true division: the double nearest to n/10.  [str] prints the shortest
    decimal that reads back as that double, in positional notation for
    values below 1e16, with ".0" appended when there is no fractional part.
    The decimal (n div 10).(n mod 10) has at most 10 significant digits and
    reads back as that double, and no shorter decimal does (doubles
    distinguish decimals of up to 15 significant digits), so it is the
    string printed. *)
Definition str_div10 (n : Z) : string :=
  (str_int (n / 10) ++ "." ++ str_int (n mod 10))%string.

(** ** gs_usb/gs_usb.py *)

Definition GS_USB_ID_VENDOR : Z := 0x1D50.
Definition GS_USB_ID_PRODUCT : Z := 0x606F.

Definition GS_USB_MODE_NORMAL : Z := 0.
Definition GS_USB_MODE_LISTEN_ONLY : Z := Z.shiftl 1 0.
Definition GS_USB_MODE_LOOP_BACK : Z := Z.shiftl 1 1.
Definition GS_USB_MODE_ONE_SHOT : Z := Z.shiftl 1 3.
Definition GS_USB_MODE_NO_ECHO_BACK : Z := Z.shiftl 1 8.

Definition _GS_USB_BREQ_HOST_FORMAT : Z := 0.
Definition _GS_USB_BREQ_BITTIMING : Z := 1.
Definition _GS_USB_BREQ_MODE : Z := 2.
Definition _GS_USB_BREQ_BERR : Z := 3.
Definition _GS_USB_BREQ_BT_CONST : Z := 4.
Definition _GS_USB_BREQ_DEVICE_CONFIG : Z := 5.

(** The values [device_info] is said to, or does, return: Python is
    dynamically typed, so a string and an object with named numeric
    attributes live in one universe.  The driver itself only ever builds
    [PyStr]. *)
Inductive pyvalue : Type :=
| PyStr (s : string)
| PyRecord (attrs : list (string * Z)).

(** The tuple assignment of [read]:
    [(frame.echo_id, frame.can_id, frame.can_dlc, frame.channel,
      frame.flags, frame.reserved, *frame.data, frame.timestamp_us) = vs].
    Six leading targets, a starred target and one trailing target; with
    fewer than seven values Python raises [ValueError]. *)
Definition assign_frame (vs : list Z) : outcome GsUsbFrame :=
  match vs with
  | v0 :: v1 :: v2 :: v3 :: v4 :: v5 :: rest =>
      match rev rest with
      | last :: starred_rev =>
          Returned {| echo_id := v0;
                      can_id := v1;
                      can_dlc := v2;
                      channel := v3;
                      flags := v4;
                      reserved := v5;
                      data := rev starred_rev;
                      timestamp_us := last |}
      | [] => Raised (OtherException "ValueError")
      end
  | _ => Raised (OtherException "ValueError")
  end.

Module GsUsb.

(** [GsUsb.start(self, mode=GS_USB_MODE_NORMAL)];
    [platform_system] is the value of [platform.system()]. *)
Definition start (platform_system : string) (mode : Z) : io unit :=
  reset ;;
  (if negb (str_in "windows" (lower platform_system)) then
     active <- is_kernel_driver_active 0 ;;
     if (active : bool) then detach_kernel_driver 0 else ret tt
   else ret tt) ;;
  let mode_ := 1 in
  let mode := Z.lor mode (Z.shiftl 1 4) in
  payload <- lift (Struct.pack "II" [mode_; mode]) ;;
  ctrl_transfer 0x41 _GS_USB_BREQ_MODE 0 0 (PayloadOut payload) ;;
  ret tt.

(** [GsUsb.stop(self)] *)
Definition stop : io unit :=
  let mode_ := 0 in
  let mode := 0 in
  payload <- lift (Struct.pack "II" [mode_; mode]) ;;
  try_except_USBError
    (ctrl_transfer 0x41 _GS_USB_BREQ_MODE 0 0 (PayloadOut payload) ;; ret tt)
    (ret tt).

(** [GsUsb.set_timing(self, prop_seg, phase_seg1, phase_seg2, sjw, brp)] *)
Definition set_timing (prop_seg phase_seg1 phase_seg2 sjw brp : Z) : io unit :=
  payload <- lift (Struct.pack "5I" [prop_seg; phase_seg1; phase_seg2; sjw; brp]) ;;
  ctrl_transfer 0x41 _GS_USB_BREQ_BITTIMING 0 0 (PayloadOut payload) ;;
  ret tt.

(** [GsUsb.set_bitrate(self, bitrate)] *)
Definition set_bitrate (bitrate : Z) : io bool :=
  let prop_seg := 1 in
  let sjw := 1 in
  if bitrate =? 10000 then
    set_timing prop_seg 12 2 sjw 300 ;; ret true
  else if bitrate =? 20000 then
    set_timing prop_seg 12 2 sjw 150 ;; ret true
  else if bitrate =? 50000 then
    set_timing prop_seg 12 2 sjw 60 ;; ret true
  else if bitrate =? 83333 then
    set_timing prop_seg 12 2 sjw 36 ;; ret true
  else if bitrate =? 100000 then
    set_timing prop_seg 12 2 sjw 30 ;; ret true
  else if bitrate =? 125000 then
    set_timing prop_seg 12 2 sjw 24 ;; ret true
  else if bitrate =? 250000 then
    set_timing prop_seg 12 2 sjw 12 ;; ret true
  else if bitrate =? 500000 then
    set_timing prop_seg 12 2 sjw 6 ;; ret true
  else if bitrate =? 800000 then
    set_timing prop_seg 11 2 sjw 4 ;; ret true
  else if bitrate =? 1000000 then
    set_timing prop_seg 11 2 sjw 3 ;; ret true
  else
    ret false.

(** The bytes [send] packs: [pack("2I12BI", frame.echo_id, ..., *frame.data,
    frame.timestamp_us)]. *)
Definition pack_frame (frame : GsUsbFrame) : outcome (list Z) :=
  Struct.pack "2I12BI"
    ([echo_id frame; can_id frame; can_dlc frame; channel frame;
      flags frame; reserved frame] ++ data frame ++ [timestamp_us frame]).

(** [GsUsb.send(self, frame)] *)
Definition send (frame : GsUsbFrame) : io bool :=
  payload <- lift (pack_frame frame) ;;
  usb_write 0x02 payload ;;
  ret true.

(** The decoding step of [read]: [unpack("2I12BI", data)] assigned to the
    frame's attributes. *)
Definition unpack_frame (buf : list Z) : outcome GsUsbFrame :=
  match Struct.unpack "2I12BI" buf with
  | Returned vs => assign_frame vs
  | Raised e => Raised e
  end.

(** [GsUsb.read(self, frame, timeout_ms)]: the result and the frame's
    attributes after the call.  When [read] raises, the frame has not been
    assigned to. *)
Definition read (frame : GsUsbFrame) (timeout_ms : Z)
  : io (bool * GsUsbFrame) :=
  r <- try_except_USBError
         (buf <- usb_read 0x81 (sizeof_frame frame) timeout_ms ;; ret (Some buf))
         (ret None) ;;
  match r with
  | None => ret (false, frame)
  | Some buf =>
      frame' <- lift (unpack_frame buf) ;;
      ret (true, frame')
  end.

(** [GsUsb.device_info] (a property).  [tup[4]] and [tup[5]] exist: a
    tuple unpacked with "4B2I" has six items. *)
Definition device_info : io pyvalue :=
  buf <- ctrl_transfer 0xC1 _GS_USB_BREQ_DEVICE_CONFIG 0 0 (LengthIn 12) ;;
  tup <- lift (Struct.unpack "4B2I" buf) ;;
  let info := ("fw: " ++ str_div10 (nth 4 tup 0)
               ++ " hw: " ++ str_div10 (nth 5 tup 0))%string in
  ret (PyStr info).

End GsUsb.

(** ** gs_usb.py (legacy module): the error-frame decoder *)

(** [l[i]] for a non-negative index: [IndexError] when out of range. *)
Definition getitem (l : list Z) (i : nat) : outcome Z :=
  match nth_error l i with
  | Some v => Returned v
  | None => Raised (OtherException "IndexError")
  end.

Notation "'let?' x ':=' m 'in' k" :=
  (match m with Returned x => k | Raised e => Raised e end)
  (at level 10, x name, m at level 100, k at level 200, only parsing).

Module Legacy.

Definition CAN_ERR_BUSOFF : Z := 0x00000001.
Definition CAN_ERR_RX_TX_WARNING : Z := 0x00000002.
Definition CAN_ERR_RX_TX_PASSIVE : Z := 0x00000004.
Definition CAN_ERR_OVERLOAD : Z := 0x00000008.
Definition CAN_ERR_STUFF : Z := 0x00000010.
Definition CAN_ERR_FORM : Z := 0x00000020.
Definition CAN_ERR_ACK : Z := 0x00000040.
Definition CAN_ERR_BIT_RECESSIVE : Z := 0x00000080.
Definition CAN_ERR_BIT_DOMINANT : Z := 0x00000100.
Definition CAN_ERR_CRC : Z := 0x00000200.

(** [GsUsb.parse_err_frame(frame)]: the tuple
    [(error_code, int(frame.data[6]), int(frame.data[7]))].  Each [if] of
    the source is one rebinding of [error_code]; the subscripts are
    evaluated in the source's order. *)
Definition parse_err_frame (frame : GsUsbFrame) : outcome (Z * Z * Z) :=
  let error_code := 0 in
  let error_code :=
    if py_bool (Z.land (can_id frame) 0x00000040)
    then Z.lor error_code CAN_ERR_BUSOFF else error_code in
  let? d1 := getitem (data frame) 1 in
  let error_code :=
    if py_bool (Z.land d1 0x04)
    then Z.lor error_code CAN_ERR_RX_TX_WARNING
    else if py_bool (Z.land d1 0x10)
    then Z.lor error_code CAN_ERR_RX_TX_PASSIVE else error_code in
  let error_code :=
    if py_bool (Z.land (flags frame) 0x00000001)
    then Z.lor error_code CAN_ERR_OVERLOAD else error_code in
  let? d2 := getitem (data frame) 2 in
  let error_code :=
    if py_bool (Z.land d2 0x04)
    then Z.lor error_code CAN_ERR_STUFF else error_code in
  let error_code :=
    if py_bool (Z.land d2 0x02)
    then Z.lor error_code CAN_ERR_FORM else error_code in
  let error_code :=
    if py_bool (Z.land (can_id frame) 0x00000020)
    then Z.lor error_code CAN_ERR_ACK else error_code in
  let error_code :=
    if py_bool (Z.land d2 0x10)
    then Z.lor error_code CAN_ERR_BIT_RECESSIVE else error_code in
  let error_code :=
    if py_bool (Z.land d2 0x08)
    then Z.lor error_code CAN_ERR_BIT_DOMINANT else error_code in
  let? d3 := getitem (data frame) 3 in
  let error_code :=
    if py_bool (Z.land d3 0x08)
    then Z.lor error_code CAN_ERR_CRC else error_code in
  let? d6 := getitem (data frame) 6 in
  let? d7 := getitem (data frame) 7 in
  Returned (error_code, d6, d7).

End Legacy.

(** * Definitions used in the statements

    Values named in the properties below: the wire layout and the transfer
    payloads, the decoding tables as the specification words them, two
    device handles to run the driver on, and the part of [start] that
    precedes the mode transfer. *)

(** The wire layout of a frame: offsets 0, 4, 8..11, 12..19 and 20. *)
Definition wire_layout (f : GsUsbFrame) : list Z :=
  Struct.le_bytes 4 (echo_id f) ++ Struct.le_bytes 4 (can_id f)
    ++ [can_dlc f; channel f; flags f; reserved f]
    ++ data f ++ Struct.le_bytes 4 (timestamp_us f).

(** The frame [read] assigns from a buffer: no field is checked. *)
Definition frame_of_buffer (buf : list Z) : GsUsbFrame :=
  {| echo_id := Struct.le_value (firstn 4 buf);
     can_id := Struct.le_value (firstn 4 (skipn 4 buf));
     can_dlc := nth 8 buf 0;
     channel := nth 9 buf 0;
     flags := nth 10 buf 0;
     reserved := nth 11 buf 0;
     data := firstn 8 (skipn 12 buf);
     timestamp_us := Struct.le_value (firstn 4 (skipn 20 buf)) |}.

(** The integers of the constructor's [data] argument. *)
Definition data_items (d : data_arg) : list Z :=
  match d with
  | DataList l => l
  | DataBytes b => list_of_bytes b
  end.

(** [code & flag] is non-zero. *)
Definition has_flag (code flag : Z) : bool := py_bool (Z.land code flag).

(** The decoding table as the specification words it: each row is a
    condition on the frame and the flag it contributes; the error code is
    the bitwise OR of the flags of the rows whose condition holds.  Bit k
    of a byte is the mask [1 << k]: 0x01, 0x02, 0x04, 0x08, 0x10, 0x20 and
    0x40 are bits 0 to 6. *)
Definition error_table_spec (f : GsUsbFrame) : list (bool * Z) :=
  let d (i : nat) := nth i (data f) 0 in
  [ (Z.testbit (can_id f) 6, Legacy.CAN_ERR_BUSOFF);
    (Z.testbit (d 1%nat) 2, Legacy.CAN_ERR_RX_TX_WARNING);
    (negb (Z.testbit (d 1%nat) 2) && Z.testbit (d 1%nat) 4,
      Legacy.CAN_ERR_RX_TX_PASSIVE);
    (Z.testbit (flags f) 0, Legacy.CAN_ERR_OVERLOAD);
    (Z.testbit (d 2%nat) 2, Legacy.CAN_ERR_STUFF);
    (Z.testbit (d 2%nat) 1, Legacy.CAN_ERR_FORM);
    (Z.testbit (can_id f) 5, Legacy.CAN_ERR_ACK);
    (Z.testbit (d 2%nat) 4, Legacy.CAN_ERR_BIT_RECESSIVE);
    (Z.testbit (d 2%nat) 3, Legacy.CAN_ERR_BIT_DOMINANT);
    (Z.testbit (d 3%nat) 3, Legacy.CAN_ERR_CRC) ].

Definition or_of_flags (table : list (bool * Z)) : Z :=
  fold_left
    (fun (acc : Z) (row : bool * Z) =>
       if fst row then Z.lor acc (snd row) else acc)
    table 0.

Definition error_flags_spec (f : GsUsbFrame) : Z :=
  or_of_flags (error_table_spec f).

(** The whitelist of the specification: bitrate and its
    (phase_seg1, phase_seg2, brp) row. *)
Definition timing_table_spec : list (Z * (Z * Z * Z)) :=
  [ (10000, (12, 2, 300));
    (20000, (12, 2, 150));
    (50000, (12, 2, 60));
    (83333, (12, 2, 36));
    (100000, (12, 2, 30));
    (125000, (12, 2, 24));
    (250000, (12, 2, 12));
    (500000, (12, 2, 6));
    (800000, (11, 2, 4));
    (1000000, (11, 2, 3)) ].

Definition timing_for_bitrate_spec (bitrate : Z) : option (Z * Z * Z) :=
  option_map snd (find (fun row => fst row =? bitrate) timing_table_spec).

(** The payload of the bit-timing transfer: five little-endian u32. *)
Definition timing_payload (prop_seg phase_seg1 phase_seg2 sjw brp : Z)
  : list Z :=
  Struct.le_bytes 4 prop_seg ++ Struct.le_bytes 4 phase_seg1
    ++ Struct.le_bytes 4 phase_seg2 ++ Struct.le_bytes 4 sjw
    ++ Struct.le_bytes 4 brp.

(** The payload of a mode transfer: [pack("II", mode_, mode)]. *)
Definition mode_payload (mode_ mode : Z) : list Z :=
  Struct.le_bytes 4 mode_ ++ Struct.le_bytes 4 mode.

(** The statements of [start] before the mode transfer: the reset and, off
    Windows, the kernel-driver check and detach. *)
Definition start_prologue (platform_system : string) : io unit :=
  (reset ;;
   if negb (str_in "windows" (lower platform_system)) then
     active <- is_kernel_driver_active 0 ;;
     if (active : bool) then detach_kernel_driver 0 else ret tt
   else ret tt)%io.

Definition is_ctrl_transfer (c : call) : bool :=
  match c with CallCtrlTransfer _ _ _ _ _ => true | _ => false end.

(** A device handle on which every call raises [usb.core.USBError], as
    when the adapter has been unplugged. *)
Definition detached_device : UsbDevice :=
  {| dev_reset := fun _ => Raised USBError;
     dev_is_kernel_driver_active := fun _ _ => Raised USBError;
     dev_detach_kernel_driver := fun _ _ => Raised USBError;
     dev_ctrl_transfer := fun _ _ _ _ _ _ => Raised USBError;
     dev_write := fun _ _ _ => Raised USBError;
     dev_read := fun _ _ _ _ => Raised USBError |}.

(** A device handle on which every call returns: control transfers and
    reads hand over [reply], a kernel driver is active and can be
    detached, and writes take the whole payload. *)
Definition replying_device (reply : list Z) : UsbDevice :=
  {| dev_reset := fun _ => Returned tt;
     dev_is_kernel_driver_active := fun _ _ => Returned true;
     dev_detach_kernel_driver := fun _ _ => Returned tt;
     dev_ctrl_transfer := fun _ _ _ _ _ _ => Returned reply;
     dev_write := fun _ _ payload => Returned (Z.of_nat (length payload));
     dev_read := fun _ _ _ _ => Returned reply |}.

(** ** gs_usb/gs_usb_frame.py: [GsUsbFrame.__str__]

    The string functions [__str__] calls: the format specifications
    [{: >8X}], [{:02X}] and [{}] on integers, [" ".join] and the slice
    [self.data[:self.can_dlc]]. *)

(** The digit characters, indexed by digit value. *)
Definition hex_digits_upper : string := "0123456789ABCDEF".

Definition hex_digit_upper (d : Z) : ascii :=
  match String.get (Z.to_nat d) hex_digits_upper with
  | Some c => c
  | None => "?"%char
  end.

(** The hexadecimal digits of [n], most significant first, in front of
    [acc]; [fuel] bounds the number of digits. *)
Fixpoint hex_loop (fuel : nat) (n : Z) (acc : string) : string :=
  match fuel with
  | O => acc
  | S fuel' =>
      let acc' := String (hex_digit_upper (n mod 16)) acc in
      if n / 16 =? 0 then acc' else hex_loop fuel' (n / 16) acc'
  end.

(** [format(n, "X")] for [0 <= n]: a number has at most [log2 n + 1]
    hexadecimal digits. *)
Definition hex_upper (n : Z) : string :=
  hex_loop (S (Z.to_nat (Z.log2 n))) n "".

(** [format(n, "X")]: the sign, then the digits of the magnitude. *)
Definition format_X (n : Z) : string :=
  if n <? 0 then String "-" (hex_upper (- n)) else hex_upper n.

Fixpoint string_repeat (c : ascii) (n : nat) : string :=
  match n with
  | O => EmptyString
  | S m => String c (string_repeat c m)
  end.

(** [format(n, " >8X")]: right-aligned with spaces in a field of 8. *)
Definition format_8X (n : Z) : string :=
  let s := format_X n in
  (string_repeat " " (8 - String.length s) ++ s)%string.

(** [format(n, "02X")]: zero-filled after the sign to a field of 2. *)
Definition format_02X (n : Z) : string :=
  if n <? 0 then
    let s := hex_upper (- n) in
    String "-" (string_repeat "0" (1 - String.length s) ++ s)
  else
    let s := hex_upper n in
    (string_repeat "0" (2 - String.length s) ++ s)%string.

(** [str(n)] for any integer. *)
Definition py_str (n : Z) : string :=
  if n <? 0 then String "-" (str_int (- n)) else str_int n.

(** [sep.join(items)] *)
Fixpoint join (sep : string) (items : list string) : string :=
  match items with
  | [] => EmptyString
  | [x] => x
  | x :: rest => (x ++ sep ++ join sep rest)%string
  end.

(** [l[:stop]]: a negative [stop] counts from the end, and the bounds are
    clamped to the list. *)
Definition slice_to {A} (l : list A) (stop : Z) : list A :=
  if 0 <=? stop then firstn (Z.to_nat stop) l
  else firstn (Z.to_nat (Z.of_nat (length l) + stop)) l.

(** [GsUsbFrame.__str__(self)] *)
Definition GsUsbFrame_str (self : GsUsbFrame) : string :=
  let data :=
    if is_remote_frame self then "remote request"%string
    else join " " (map format_02X (slice_to (data self) (can_dlc self))) in
  (format_8X (arbitration_id self) ++ "   [" ++ py_str (can_dlc self)
   ++ "]  " ++ data)%string.

(** ** Further definitions used in the statements *)

(** The value a string of hexadecimal digits denotes. *)
Definition hex_digit_value (c : ascii) : Z :=
  let n := Z.of_nat (nat_of_ascii c) in
  if (48 <=? n) && (n <=? 57) then n - 48
  else if (65 <=? n) && (n <=? 70) then n - 55
  else 0.

Fixpoint hex_value (s : string) : Z :=
  match s with
  | EmptyString => 0
  | String c rest =>
      hex_digit_value c * 16 ^ Z.of_nat (String.length rest) + hex_value rest
  end.

(** The arguments [pack("2I12BI", ...)] accepts: the three words in
    unsigned 32-bit range, the four header bytes and exactly 8 data items
    in unsigned 8-bit range. *)
Definition packable (f : GsUsbFrame) : bool :=
  Struct.in_range Struct.CodeI (echo_id f)
  && Struct.in_range Struct.CodeI (can_id f)
  && Struct.in_range Struct.CodeB (can_dlc f)
  && Struct.in_range Struct.CodeB (channel f)
  && Struct.in_range Struct.CodeB (flags f)
  && Struct.in_range Struct.CodeB (reserved f)
  && (length (data f) =? 8)%nat
  && forallb (Struct.in_range Struct.CodeB) (data f)
  && Struct.in_range Struct.CodeI (timestamp_us f).

Definition is_kernel_driver_call (c : call) : bool :=
  match c with
  | CallIsKernelDriverActive _ | CallDetachKernelDriver _ => true
  | _ => false
  end.

(** [can_id] as a caller builds it: an identifier with the flags OR-ed
    in, as in [0x123 | CAN_EFF_FLAG]. *)
Definition make_can_id (identifier : Z) (extended remote error : bool) : Z :=
  Z.lor (Z.lor (Z.lor identifier (if extended then CAN_EFF_FLAG else 0))
           (if remote then CAN_RTR_FLAG else 0))
    (if error then CAN_ERR_FLAG else 0).

(** The CAN bit time the five timing parameters describe: one
    synchronisation quantum followed by [prop_seg], [phase_seg1] and
    [phase_seg2] quanta, a quantum being [brp] ticks of the 48 MHz base
    clock that the docstrings of [set_bitrate] and [set_timing] name; the
    bit is sampled at the end of [phase_seg1]. *)
Definition quanta_per_bit (prop_seg phase_seg1 phase_seg2 : Z) : Z :=
  1 + prop_seg + phase_seg1 + phase_seg2.

Definition nominal_bit_rate (prop_seg phase_seg1 phase_seg2 brp : Z) : Z :=
  48000000 / (brp * quanta_per_bit prop_seg phase_seg1 phase_seg2).

(** The sample point in units of 0.1 percent. *)
Definition sample_point_permille (prop_seg phase_seg1 phase_seg2 : Z) : Z :=
  1000 * (1 + prop_seg + phase_seg1)
  / quanta_per_bit prop_seg phase_seg1 phase_seg2.

(** A device handle on which every call raises the exception [e]. *)
Definition raising_device (e : exn) : UsbDevice :=
  {| dev_reset := fun _ => Raised e;
     dev_is_kernel_driver_active := fun _ _ => Raised e;
     dev_detach_kernel_driver := fun _ _ => Raised e;
     dev_ctrl_transfer := fun _ _ _ _ _ _ => Raised e;
     dev_write := fun _ _ _ => Raised e;
     dev_read := fun _ _ _ _ => Raised e |}.

(** The characters [format(n, "X")] prints: 0-9 and A-F. *)
Definition is_hex_upper (c : ascii) : bool :=
  let n := nat_of_ascii c in
  (Nat.leb 48 n && Nat.leb n 57) || (Nat.leb 65 n && Nat.leb n 70).

Fixpoint all_hex_upper (s : string) : bool :=
  match s with
  | EmptyString => true
  | String c rest => is_hex_upper c && all_hex_upper rest
  end.

(** A byte printed as two hexadecimal digits: exactly two characters
    from 0-9, A-F that denote the byte.  There is one such string for
    each byte. *)
Definition two_hex_digits_of (b : Z) (col : string) : Prop :=
  String.length col = 2%nat /\ all_hex_upper col = true /\ hex_value col = b.

(** A number printed in hexadecimal without leading zeros: characters
    from 0-9, A-F that denote the number, the first of them not "0"
    unless the number is 0 and the string is "0".  There is one such
    string for each number. *)
Definition hex_digits_of (n : Z) (digits : string) : Prop :=
  all_hex_upper digits = true /\
  hex_value digits = n /\
  (digits = "0"%string \/
   exists c rest, digits = String c rest /\ c <> "0"%char).

(** * Properties *)

(** ** Bit tests *)

(** Testing a one-bit mask with [&] and truthiness is [Z.testbit]. *)
Lemma py_bool_land_pow2 (x k : Z) :
  0 <= k -> py_bool (Z.land x (2 ^ k)) = Z.testbit x k.
Proof.
  intros Hk. unfold py_bool.
  destruct (Z.testbit x k) eqn:Hbit.
  - destruct (Z.eqb_spec (Z.land x (2 ^ k)) 0) as [H0 | _]; [ | reflexivity ].
    assert (Hk' : Z.testbit (Z.land x (2 ^ k)) k = true).
    { rewrite Z.land_spec, Hbit, Z.pow2_bits_true by assumption. reflexivity. }
    rewrite H0, Z.bits_0 in Hk'. discriminate.
  - assert (H0 : Z.land x (2 ^ k) = 0).
    { apply Z.bits_inj'. intros n Hn.
      rewrite Z.land_spec, Z.bits_0, Z.pow2_bits_eqb by assumption.
      destruct (Z.eqb_spec k n) as [-> | _].
      - rewrite Hbit. reflexivity.
      - apply andb_false_r. }
    rewrite H0. reflexivity.
Qed.

Lemma py_bool_land_mask (x mask k : Z) :
  0 <= k -> mask = 2 ^ k -> py_bool (Z.land x mask) = Z.testbit x k.
Proof. intros Hk ->. now apply py_bool_land_pow2. Qed.

(** ** The frame's derived attributes *)

(** C9. For every frame, [is_extended_id], [is_remote_frame] and
    [is_error_frame] are the tests of bits 31 (0x80000000), 30 (0x40000000)
    and 29 (0x20000000) of [can_id] and of nothing else in the frame, and
    [arbitration_id] is [can_id & 0x1FFFFFFF], the low 29 bits; a frame
    with [can_id = 0x80000123] is extended, not remote, not an error frame,
    and has arbitration id 0x123. *)
Theorem derived_flags_are_can_id_bit_tests
    (e c dlc ch fl rs : Z) (d : list Z) (ts : Z) :
  let f := mkFrame e c dlc ch fl rs d ts in
  is_extended_id f = Z.testbit c 31 /\
  is_remote_frame f = Z.testbit c 30 /\
  is_error_frame f = Z.testbit c 29 /\
  arbitration_id f = Z.land c 0x1FFFFFFF /\
  arbitration_id f = c mod 2 ^ 29 /\
  let g := mkFrame e 0x80000123 dlc ch fl rs d ts in
  is_extended_id g = true /\
  is_remote_frame g = false /\
  is_error_frame g = false /\
  arbitration_id g = 0x123.
Proof.
  cbv zeta.
  unfold is_extended_id, is_remote_frame, is_error_frame, arbitration_id.
  cbn [can_id].
  repeat split.
  - exact (py_bool_land_pow2 c 31 ltac:(lia)).
  - exact (py_bool_land_pow2 c 30 ltac:(lia)).
  - exact (py_bool_land_pow2 c 29 ltac:(lia)).
  - change CAN_EFF_MASK with (Z.ones 29). apply Z.land_ones. lia.
Qed.

(** ** [struct.pack] and [struct.unpack] *)

Module StructFacts.
Import Struct.

Lemma padding_nonneg (k : code) (offset : Z) : 0 <= padding k offset.
Proof.
  unfold padding. destruct k; cbn [align_of];
    apply Z.mod_pos_bound; lia.
Qed.

Lemma size_of_pos (k : code) : 0 < size_of k.
Proof. destruct k; cbn; lia. Qed.

Lemma le_bytes_length (n : nat) (v : Z) : length (le_bytes n v) = n.
Proof.
  revert v. induction n as [ | n IH ]; intros v; cbn [le_bytes length].
  - reflexivity.
  - now rewrite IH.
Qed.

(** Decoding the [n] little-endian bytes of [v] gives [v] modulo 256^n. *)
Lemma le_value_le_bytes (n : nat) (v : Z) :
  le_value (le_bytes n v) = v mod 256 ^ Z.of_nat n.
Proof.
  revert v. induction n as [ | n IH ]; intros v.
  - cbn [le_bytes le_value]. change (256 ^ Z.of_nat 0) with 1.
    now rewrite Z.mod_1_r.
  - cbn [le_bytes le_value]. rewrite IH.
    rewrite Nat2Z.inj_succ, Z.pow_succ_r by lia.
    rewrite Z.rem_mul_r by lia. reflexivity.
Qed.

Lemma in_range_bound (k : code) (v : Z) :
  in_range k v = true -> 0 <= v < 256 ^ size_of k.
Proof.
  destruct k; cbn [in_range size_of]; intros H;
    apply andb_prop in H; destruct H as [H1 H2];
    apply Z.leb_le in H1; apply Z.leb_le in H2.
  - change (256 ^ 4) with 4294967296. lia.
  - change (256 ^ 1) with 256. lia.
Qed.

Lemma le_value_le_bytes_in_range (k : code) (v : Z) :
  in_range k v = true ->
  le_value (le_bytes (Z.to_nat (size_of k)) v) = v.
Proof.
  intros H. rewrite le_value_le_bytes.
  rewrite Z2Nat.id by (pose proof (size_of_pos k); lia).
  apply Z.mod_small. now apply in_range_bound.
Qed.

(** Every failure of [pack] is a [struct.error]. *)
Lemma pack_codes_raises_StructError (ks : list code) :
  forall args offset e,
    pack_codes ks args offset = Raised e -> e = StructError.
Proof.
  induction ks as [ | k ks IH ]; intros [ | v args ] offset e H;
    cbn [pack_codes] in H; try congruence.
  destruct (in_range k v); [ | congruence ].
  destruct (pack_codes ks args _) eqn:Hrec; [ discriminate | ].
  injection H as <-. eauto.
Qed.

(** [pack] succeeds only with as many arguments as the format has items,
    each in the range of its item. *)
Lemma pack_codes_Returned_inv (ks : list code) :
  forall args offset bs,
    pack_codes ks args offset = Returned bs ->
    Forall2 (fun k v => in_range k v = true) ks args.
Proof.
  induction ks as [ | k ks IH ]; intros [ | v args ] offset bs H;
    cbn [pack_codes] in H; try discriminate.
  - constructor.
  - destruct (in_range k v) eqn:Hr; [ | discriminate ].
    destruct (pack_codes ks args _) eqn:Hrec; [ | discriminate ].
    constructor; eauto.
Qed.

(** Round trip at the level of item lists: with every argument in the
    range of its item, [pack] returns a buffer of [calcsize] bytes from
    which [unpack] reads the arguments back. *)
Lemma pack_unpack_codes (ks : list code) :
  forall args offset,
    Forall2 (fun k v => in_range k v = true) ks args ->
    exists bs,
      pack_codes ks args offset = Returned bs /\
      Z.of_nat (length bs) = calcsize_codes ks offset - offset /\
      unpack_codes ks bs offset = args.
Proof.
  induction ks as [ | k ks IH ]; intros args offset Hall;
    inversion Hall as [ | k' v ks' args' Hr Hrest ]; subst.
  - exists []. cbn. repeat split. lia.
  - destruct (IH args' (offset + padding k offset + size_of k) Hrest)
      as (bs & Hpack & Hlen & Hunpack).
    eexists. cbn [pack_codes]. rewrite Hr, Hpack.
    split; [ reflexivity | ].
    pose proof (padding_nonneg k offset) as Hpad.
    pose proof (size_of_pos k) as Hsz.
    split.
    + rewrite !length_app, repeat_length, le_bytes_length.
      cbn [calcsize_codes]. lia.
    + cbn [unpack_codes].
      assert (Hskip :
        skipn (Z.to_nat (padding k offset))
          (repeat 0 (Z.to_nat (padding k offset))
             ++ le_bytes (Z.to_nat (size_of k)) v ++ bs)
        = le_bytes (Z.to_nat (size_of k)) v ++ bs).
      { rewrite skipn_app, repeat_length, Nat.sub_diag.
        rewrite skipn_all2 by (rewrite repeat_length; lia).
        reflexivity. }
      rewrite Hskip.
      rewrite firstn_app, le_bytes_length, Nat.sub_diag.
      rewrite firstn_all2 by (rewrite le_bytes_length; lia).
      cbn [firstn]. rewrite app_nil_r.
      rewrite le_value_le_bytes_in_range by assumption.
      rewrite skipn_app, le_bytes_length, Nat.sub_diag.
      rewrite skipn_all2 by (rewrite le_bytes_length; lia).
      cbn [skipn app]. now rewrite Hunpack.
Qed.

Lemma format_II :
  parse_format "II" None = Some [CodeI; CodeI].
Proof. reflexivity. Qed.

Lemma format_5I :
  parse_format "5I" None = Some [CodeI; CodeI; CodeI; CodeI; CodeI].
Proof. reflexivity. Qed.

Lemma format_4B2I :
  parse_format "4B2I" None = Some [CodeB; CodeB; CodeB; CodeB; CodeI; CodeI].
Proof. reflexivity. Qed.

Lemma format_2I12BI :
  parse_format "2I12BI" None
  = Some ([CodeI; CodeI] ++ repeat CodeB 12 ++ [CodeI]).
Proof. reflexivity. Qed.

Lemma calcsize_2I12BI :
  calcsize_codes ([CodeI; CodeI] ++ repeat CodeB 12 ++ [CodeI]) 0 = 24.
Proof. reflexivity. Qed.

End StructFacts.

(** ** The frame codec of [send] and [read] *)

Section FrameCodec.
Import Struct StructFacts.

Lemma in_range_I (v : Z) : 0 <= v < 2 ^ 32 -> in_range CodeI v = true.
Proof.
  intros H. change (2 ^ 32) with 4294967296 in H. cbn [in_range].
  apply andb_true_intro. split; apply Z.leb_le; lia.
Qed.

Lemma in_range_B (v : Z) : 0 <= v < 256 -> in_range CodeB v = true.
Proof.
  intros H. cbn [in_range].
  apply andb_true_intro. split; apply Z.leb_le; lia.
Qed.

Lemma pack_codes_cons (k : code) (ks : list code) (v : Z) (args : list Z)
    (offset : Z) (bs : list Z) :
  in_range k v = true ->
  pack_codes ks args (offset + padding k offset + size_of k) = Returned bs ->
  pack_codes (k :: ks) (v :: args) offset
  = Returned (repeat 0 (Z.to_nat (padding k offset))
                ++ le_bytes (Z.to_nat (size_of k)) v ++ bs).
Proof.
  intros Hr Hrest. cbn [pack_codes]. now rewrite Hr, Hrest.
Qed.

Lemma pack_frame_layout (f : GsUsbFrame) :
  0 <= echo_id f < 2 ^ 32 ->
  0 <= can_id f < 2 ^ 32 ->
  0 <= timestamp_us f < 2 ^ 32 ->
  0 <= can_dlc f < 256 ->
  0 <= channel f < 256 ->
  0 <= flags f < 256 ->
  0 <= reserved f < 256 ->
  length (data f) = 8%nat ->
  Forall (fun b => 0 <= b < 256) (data f) ->
  GsUsb.pack_frame f = Returned (wire_layout f).
Proof.
  destruct f as [e c dlc ch fl rs d ts]. cbn [echo_id can_id can_dlc channel
    flags reserved data timestamp_us].
  intros He Hc Hts Hdlc Hch Hfl Hrs Hlen Hd.
  destruct d as [ | d0 [ | d1 [ | d2 [ | d3 [ | d4 [ | d5 [ | d6 [ | d7
    [ | ? ? ] ] ] ] ] ] ] ] ]; try discriminate Hlen.
  clear Hlen.
  repeat match goal with
         | H : Forall _ (_ :: _) |- _ =>
             let Hb := fresh "Hb" in
             apply Forall_cons_iff in H; destruct H as [Hb H]
         end.
  unfold GsUsb.pack_frame, wire_layout, pack. rewrite format_2I12BI.
  cbn [app repeat echo_id can_id can_dlc channel flags reserved data
       timestamp_us].
  match goal with
  | |- pack_codes ?ks ?args 0 = _ =>
      eassert (Hpack : pack_codes ks args 0 = Returned _)
  end.
  { repeat (apply pack_codes_cons;
            [ first [ apply in_range_I | apply in_range_B ]; eassumption | ]).
    reflexivity. }
  rewrite Hpack. clear Hpack.
  transitivity
    (Returned
       (le_bytes 4 e ++ le_bytes 4 c
          ++ map (fun b => b mod 256)
               [dlc; ch; fl; rs; d0; d1; d2; d3; d4; d5; d6; d7]
          ++ le_bytes 4 ts)); [ reflexivity | ].
  cbn [map app]. rewrite !Z.mod_small by assumption. reflexivity.
Qed.

End FrameCodec.

(** What [send] does with a frame that packs to [buf], and what [read]
    does when the device hands over [buf]. *)
Lemma send_writes_packed_frame (f : GsUsbFrame) (buf : list Z)
    (dev : UsbDevice) (h : list call) (n : Z) :
  GsUsb.pack_frame f = Returned buf ->
  dev_write dev h 0x02 buf = Returned n ->
  GsUsb.send f dev h = (Returned true, h ++ [CallWrite 0x02 buf]).
Proof.
  intros Hpack Hwrite.
  unfold GsUsb.send, bind, lift, usb_write, ret.
  now rewrite Hpack, Hwrite.
Qed.

Lemma read_unpacks_received_frame (f frame0 : GsUsbFrame) (buf : list Z)
    (dev : UsbDevice) (h : list call) (timeout_ms : Z) :
  GsUsb.unpack_frame buf = Returned f ->
  dev_read dev h 0x81 24 timeout_ms = Returned buf ->
  GsUsb.read frame0 timeout_ms dev h
  = (Returned (true, f), h ++ [CallRead 0x81 24 timeout_ms]).
Proof.
  intros Hunpack Hread.
  unfold GsUsb.read, bind, try_except_USBError, lift, usb_read, ret,
    sizeof_frame, GS_USB_FRAME_SIZE.
  now rewrite Hread, Hunpack.
Qed.

(** C1. Round trip of the frame codec.  For every frame whose [echo_id],
    [can_id] and [timestamp_us] are in [0, 2^32), whose [can_dlc],
    [channel], [flags] and [reserved] are in [0, 256) and whose [data] is
    a list of exactly 8 bytes, [pack("2I12BI", ...)] as called by [send]
    returns a buffer of 24 bytes in the little-endian wire layout, and
    [unpack("2I12BI", ...)] as called by [read] assigns from that buffer a
    frame equal to the original in every field; [send] writes that buffer
    to endpoint 0x02 and [read], given that buffer, returns True with the
    frame. *)
Theorem frame_pack_unpack_roundtrip (f : GsUsbFrame) :
  0 <= echo_id f < 2 ^ 32 ->
  0 <= can_id f < 2 ^ 32 ->
  0 <= timestamp_us f < 2 ^ 32 ->
  0 <= can_dlc f < 256 ->
  0 <= channel f < 256 ->
  0 <= flags f < 256 ->
  0 <= reserved f < 256 ->
  length (data f) = 8%nat ->
  Forall (fun b => 0 <= b < 256) (data f) ->
  exists buf,
    GsUsb.pack_frame f = Returned buf /\
    length buf = 24%nat /\
    buf = wire_layout f /\
    GsUsb.unpack_frame buf = Returned f /\
    (forall dev h n,
        dev_write dev h 0x02 buf = Returned n ->
        GsUsb.send f dev h = (Returned true, h ++ [CallWrite 0x02 buf])) /\
    (forall dev h frame0 timeout_ms,
        dev_read dev h 0x81 24 timeout_ms = Returned buf ->
        GsUsb.read frame0 timeout_ms dev h
        = (Returned (true, f), h ++ [CallRead 0x81 24 timeout_ms])).
Proof.
  intros He Hc Hts Hdlc Hch Hfl Hrs Hlen Hd.
  pose proof (pack_frame_layout f He Hc Hts Hdlc Hch Hfl Hrs Hlen Hd) as Hpack.
  assert (Hround :
    Z.of_nat (length (wire_layout f)) = 24 /\
    GsUsb.unpack_frame (wire_layout f) = Returned f).
  { pose proof Hpack as Hcodes.
    unfold GsUsb.pack_frame, Struct.pack in Hcodes.
    rewrite StructFacts.format_2I12BI in Hcodes.
    pose proof (StructFacts.pack_codes_Returned_inv _ _ _ _ Hcodes) as Hall.
    destruct (StructFacts.pack_unpack_codes _ _ 0 Hall)
      as (bs & Hbs & Hsize & Hback).
    rewrite Hcodes in Hbs. injection Hbs as <-.
    rewrite StructFacts.calcsize_2I12BI in Hsize.
    split; [ lia | ].
    unfold GsUsb.unpack_frame, Struct.unpack.
    rewrite StructFacts.format_2I12BI, StructFacts.calcsize_2I12BI.
    replace (Z.of_nat (length (wire_layout f)) =? 24) with true
      by (symmetry; apply Z.eqb_eq; lia).
    rewrite Hback. destruct f as [e c dlc ch fl rs d ts].
    cbn [echo_id can_id can_dlc channel flags reserved data timestamp_us
         app assign_frame].
    rewrite rev_unit, rev_involutive. reflexivity. }
  destruct Hround as [Hsize Hunpack].
  exists (wire_layout f).
  split; [ exact Hpack | ].
  split; [ lia | ].
  split; [ reflexivity | ].
  split; [ exact Hunpack | ].
  split.
  - intros dev h n Hw.
    exact (send_writes_packed_frame f (wire_layout f) dev h n Hpack Hw).
  - intros dev h frame0 t Hr.
    exact (read_unpacks_received_frame f frame0 (wire_layout f) dev h t
             Hunpack Hr).
Qed.

(** The round trip at a frame with every field non-trivial. *)
Lemma frame_pack_unpack_roundtrip_witness :
  let f := mkFrame 0xFFFFFFFF 0x80000123 8 1 2 3
             [0x11; 0x22; 0x33; 0x44; 0x55; 0x66; 0x77; 0xFF] 0x01020304 in
  exists buf,
    GsUsb.pack_frame f = Returned buf /\
    length buf = 24%nat /\
    buf = wire_layout f /\
    GsUsb.unpack_frame buf = Returned f /\
    (forall dev h n,
        dev_write dev h 0x02 buf = Returned n ->
        GsUsb.send f dev h = (Returned true, h ++ [CallWrite 0x02 buf])) /\
    (forall dev h frame0 timeout_ms,
        dev_read dev h 0x81 24 timeout_ms = Returned buf ->
        GsUsb.read frame0 timeout_ms dev h
        = (Returned (true, f), h ++ [CallRead 0x81 24 timeout_ms])).
Proof.
  cbv zeta.
  apply frame_pack_unpack_roundtrip; cbn;
    try lia; try reflexivity.
  repeat constructor; lia.
Defined.

(** ** The constructor *)

Lemma pack_frame_needs_8_data (f : GsUsbFrame) (buf : list Z) :
  GsUsb.pack_frame f = Returned buf -> length (data f) = 8%nat.
Proof.
  unfold GsUsb.pack_frame, Struct.pack.
  rewrite StructFacts.format_2I12BI. intros H.
  apply StructFacts.pack_codes_Returned_inv, Forall2_length in H.
  rewrite !length_app in H. cbn [length repeat app] in H. lia.
Qed.

(** C10. For every [data] argument with n items, a list or a [bytes]
    object, the constructor returns a frame whose [data] starts with the n
    items given, followed by 8 - n zeros and nothing else, whose [can_dlc]
    is n, whose [can_id] is the argument and whose [echo_id], [channel],
    [flags], [reserved] and [timestamp_us] are 0.  With n <= 8 the [data]
    field has exactly 8 items; with n > 8 it is the argument unchanged,
    longer than 8, and packing the frame for [send] raises
    [struct.error]. *)
Theorem GsUsbFrame_init_pads_data (cid : Z) (d : data_arg) :
  let n := length (data_items d) in
  let f := GsUsbFrame_init cid d in
  firstn n (data f) = data_items d /\
  skipn n (data f) = repeat 0 (8 - n)%nat /\
  can_dlc f = Z.of_nat n /\
  can_id f = cid /\
  echo_id f = 0 /\ channel f = 0 /\ flags f = 0 /\ reserved f = 0 /\
  timestamp_us f = 0 /\
  ((n <= 8)%nat -> length (data f) = 8%nat) /\
  ((8 < n)%nat ->
     data f = data_items d /\
     (8 < length (data f))%nat /\
     GsUsb.pack_frame f = Raised StructError).
Proof.
  cbv zeta.
  assert (Hdata :
    data (GsUsbFrame_init cid d)
    = data_items d ++ repeat 0 (8 - length (data_items d))%nat).
  { unfold GsUsbFrame_init, zeros, data_items. cbn [data].
    f_equal. f_equal. destruct d; lia. }
  assert (Hdlc :
    can_dlc (GsUsbFrame_init cid d) = Z.of_nat (length (data_items d))).
  { destruct d; reflexivity. }
  rewrite Hdata, Hdlc.
  split.
  { rewrite firstn_app, Nat.sub_diag, firstn_all. cbn [firstn].
    apply app_nil_r. }
  split.
  { rewrite skipn_app, Nat.sub_diag, skipn_all. reflexivity. }
  do 7 (split; [ reflexivity | ]).
  split.
  - intros Hn. rewrite length_app, repeat_length. lia.
  - intros Hn.
    replace (8 - length (data_items d))%nat with 0%nat by lia.
    cbn [repeat]. rewrite app_nil_r.
    split; [ reflexivity | ].
    split; [ exact Hn | ].
    destruct (GsUsb.pack_frame (GsUsbFrame_init cid d)) as [buf | e] eqn:Hp.
    + apply pack_frame_needs_8_data in Hp. rewrite Hdata in Hp.
      rewrite length_app, repeat_length in Hp. lia.
    + f_equal. unfold GsUsb.pack_frame, Struct.pack in Hp.
      rewrite StructFacts.format_2I12BI in Hp.
      now apply StructFacts.pack_codes_raises_StructError in Hp.
Qed.

(** The constructor on a 3-byte [bytes] object and on a 9-item list. *)
Lemma GsUsbFrame_init_pads_data_witness :
  (data (GsUsbFrame_init 0x123
           (DataBytes [Byte.x01; Byte.x02; Byte.xff]))
   = [1; 2; 255; 0; 0; 0; 0; 0] /\
   length (data (GsUsbFrame_init 0x123
                   (DataBytes [Byte.x01; Byte.x02; Byte.xff]))) = 8%nat) /\
  (8 < length (data (GsUsbFrame_init 0x123%Z
                       (DataList [1; 2; 3; 4; 5; 6; 7; 8; 9]%Z))))%nat /\
  GsUsb.pack_frame (GsUsbFrame_init 0x123
                      (DataList [1; 2; 3; 4; 5; 6; 7; 8; 9]))
  = Raised StructError.
Proof.
  split.
  - split; [ reflexivity | ].
    apply (GsUsbFrame_init_pads_data 0x123
             (DataBytes [Byte.x01; Byte.x02; Byte.xff])).
    cbn. lia.
  - apply (GsUsbFrame_init_pads_data 0x123
             (DataList [1; 2; 3; 4; 5; 6; 7; 8; 9])).
    cbn. lia.
Defined.

(** ** The error-frame decoder *)

Section ErrorDecoder.
Import Legacy.

Lemma getitem_nth (l : list Z) (i : nat) :
  (i < length l)%nat -> getitem l i = Returned (nth i l 0).
Proof.
  intros Hi. unfold getitem.
  destruct (nth_error l i) as [v | ] eqn:Hv.
  - now rewrite (nth_error_nth l i 0 Hv).
  - apply nth_error_None in Hv. lia.
Qed.

(** The decoder returns on every frame with at least 8 data items, and
    its error code is the OR of the table. *)
Lemma parse_err_frame_table (f : GsUsbFrame) :
  (8 <= length (data f))%nat ->
  parse_err_frame f
  = Returned (error_flags_spec f, nth 6 (data f) 0, nth 7 (data f) 0).
Proof.
  intros Hlen. unfold parse_err_frame.
  rewrite !getitem_nth by lia.
  rewrite (py_bool_land_mask (can_id f) 0x40 6),
    (py_bool_land_mask (can_id f) 0x20 5),
    (py_bool_land_mask (flags f) 0x01 0),
    (py_bool_land_mask (nth 1 (data f) 0) 0x04 2),
    (py_bool_land_mask (nth 1 (data f) 0) 0x10 4),
    (py_bool_land_mask (nth 2 (data f) 0) 0x02 1),
    (py_bool_land_mask (nth 2 (data f) 0) 0x04 2),
    (py_bool_land_mask (nth 2 (data f) 0) 0x08 3),
    (py_bool_land_mask (nth 2 (data f) 0) 0x10 4),
    (py_bool_land_mask (nth 3 (data f) 0) 0x08 3)
    by (lia || reflexivity).
  unfold error_flags_spec, or_of_flags, error_table_spec.
  cbn [fold_left fst snd].
  destruct (Z.testbit (nth 1 (data f) 0) 2); reflexivity.
Qed.

(** Which flags the OR of the table contains: each one exactly when its
    row's condition holds, and no bit outside the ten flags. *)
Lemma error_flags_spec_bits (f : GsUsbFrame) :
  let d (i : nat) := nth i (data f) 0 in
  let code := error_flags_spec f in
  has_flag code CAN_ERR_BUSOFF = Z.testbit (can_id f) 6 /\
  has_flag code CAN_ERR_RX_TX_WARNING = Z.testbit (d 1%nat) 2 /\
  has_flag code CAN_ERR_RX_TX_PASSIVE
    = negb (Z.testbit (d 1%nat) 2) && Z.testbit (d 1%nat) 4 /\
  has_flag code CAN_ERR_OVERLOAD = Z.testbit (flags f) 0 /\
  has_flag code CAN_ERR_STUFF = Z.testbit (d 2%nat) 2 /\
  has_flag code CAN_ERR_FORM = Z.testbit (d 2%nat) 1 /\
  has_flag code CAN_ERR_ACK = Z.testbit (can_id f) 5 /\
  has_flag code CAN_ERR_BIT_RECESSIVE = Z.testbit (d 2%nat) 4 /\
  has_flag code CAN_ERR_BIT_DOMINANT = Z.testbit (d 2%nat) 3 /\
  has_flag code CAN_ERR_CRC = Z.testbit (d 3%nat) 3 /\
  0 <= code < 1024.
Proof.
  cbv zeta.
  unfold error_flags_spec, or_of_flags, error_table_spec.
  cbn [fold_left fst snd].
  generalize (Z.testbit (can_id f) 6) (Z.testbit (can_id f) 5)
    (Z.testbit (flags f) 0)
    (Z.testbit (nth 1 (data f) 0) 2) (Z.testbit (nth 1 (data f) 0) 4)
    (Z.testbit (nth 2 (data f) 0) 1) (Z.testbit (nth 2 (data f) 0) 2)
    (Z.testbit (nth 2 (data f) 0) 3) (Z.testbit (nth 2 (data f) 0) 4)
    (Z.testbit (nth 3 (data f) 0) 3).
  intros b6 b5 o w p fo st dom rec crc.
  destruct b6, b5, o, w, p, fo, st, dom, rec, crc; vm_compute;
    repeat split; discriminate.
Qed.

End ErrorDecoder.

Lemma parse_err_frame_Returned_inv (f : GsUsbFrame) (r : Z * Z * Z) :
  Legacy.parse_err_frame f = Returned r -> (8 <= length (data f))%nat.
Proof.
  unfold Legacy.parse_err_frame. intros H.
  destruct (getitem (data f) 1); [ | discriminate ].
  destruct (getitem (data f) 2); [ | discriminate ].
  destruct (getitem (data f) 3); [ | discriminate ].
  destruct (getitem (data f) 6); [ | discriminate ].
  destruct (getitem (data f) 7) eqn:H7; [ | discriminate ].
  unfold getitem in H7.
  destruct (nth_error (data f) 7) eqn:Hnth; [ | discriminate ].
  assert (Hsome : nth_error (data f) 7 <> None) by congruence.
  apply nth_error_Some in Hsome. lia.
Qed.

(** C2 (as amended). For every frame with its 8 data bytes,
    [parse_err_frame] returns [(error_code, data[6], data[7])] where
    [error_code] is the bitwise OR of exactly the flags whose condition
    holds: [can_id] bit 0x40 gives BUSOFF, [data[1]] bit 0x04 gives
    RX_TX_WARNING, else [data[1]] bit 0x10 gives RX_TX_PASSIVE, [flags]
    bit 0x01 gives OVERLOAD, [data[2]] bits 0x04, 0x02, 0x10, 0x08 give
    STUFF, FORM, BIT_RECESSIVE, BIT_DOMINANT, [can_id] bit 0x20 gives ACK
    and [data[3]] bit 0x08 gives CRC; no other bit is set.  In particular
    a frame with [can_id] bit 0x40 set and data [0,0,0x04,0x08,0,0,5,2]
    yields an error code containing BUSOFF, STUFF and CRC, and not
    BIT_DOMINANT, with tx error count 5 and rx error count 2. *)
Theorem parse_err_frame_decodes (f : GsUsbFrame) :
  (8 <= length (data f))%nat ->
  let d (i : nat) := nth i (data f) 0 in
  exists error_code,
    Legacy.parse_err_frame f = Returned (error_code, d 6%nat, d 7%nat) /\
    error_code = error_flags_spec f /\
    (has_flag error_code Legacy.CAN_ERR_BUSOFF = Z.testbit (can_id f) 6 /\
     has_flag error_code Legacy.CAN_ERR_RX_TX_WARNING
       = Z.testbit (d 1%nat) 2 /\
     has_flag error_code Legacy.CAN_ERR_RX_TX_PASSIVE
       = negb (Z.testbit (d 1%nat) 2) && Z.testbit (d 1%nat) 4 /\
     has_flag error_code Legacy.CAN_ERR_OVERLOAD = Z.testbit (flags f) 0 /\
     has_flag error_code Legacy.CAN_ERR_STUFF = Z.testbit (d 2%nat) 2 /\
     has_flag error_code Legacy.CAN_ERR_FORM = Z.testbit (d 2%nat) 1 /\
     has_flag error_code Legacy.CAN_ERR_ACK = Z.testbit (can_id f) 5 /\
     has_flag error_code Legacy.CAN_ERR_BIT_RECESSIVE
       = Z.testbit (d 2%nat) 4 /\
     has_flag error_code Legacy.CAN_ERR_BIT_DOMINANT
       = Z.testbit (d 2%nat) 3 /\
     has_flag error_code Legacy.CAN_ERR_CRC = Z.testbit (d 3%nat) 3 /\
     0 <= error_code < 1024) /\
    (has_flag (can_id f) 0x40 = true ->
     data f = [0; 0; 0x04; 0x08; 0; 0; 5; 2] ->
     has_flag error_code Legacy.CAN_ERR_BUSOFF = true /\
     has_flag error_code Legacy.CAN_ERR_STUFF = true /\
     has_flag error_code Legacy.CAN_ERR_CRC = true /\
     has_flag error_code Legacy.CAN_ERR_BIT_DOMINANT = false /\
     d 6%nat = 5 /\ d 7%nat = 2).
Proof.
  intros Hlen d. exists (error_flags_spec f).
  pose proof (error_flags_spec_bits f) as Hbits. cbv zeta in Hbits.
  split; [ now apply parse_err_frame_table | ].
  split; [ reflexivity | ].
  split; [ exact Hbits | ].
  intros Hbusoff Hdata.
  destruct Hbits as (Hb & _ & _ & _ & Hst & _ & _ & _ & Hdom & Hcrc & _).
  rewrite Hb, Hst, Hcrc, Hdom. subst d. cbv beta. rewrite Hdata.
  unfold has_flag in Hbusoff.
  rewrite (py_bool_land_mask (can_id f) 0x40 6) in Hbusoff
    by (lia || reflexivity).
  rewrite Hbusoff. repeat split.
Qed.

(** The decoder at the error frame of the scenario. *)
Lemma parse_err_frame_decodes_witness :
  exists error_code,
    Legacy.parse_err_frame
      (mkFrame 0xFFFFFFFF 0x20000040 8 0 0 0 [0; 0; 0x04; 0x08; 0; 0; 5; 2] 0)
    = Returned (error_code, 5, 2) /\
    has_flag error_code Legacy.CAN_ERR_BUSOFF = true /\
    has_flag error_code Legacy.CAN_ERR_STUFF = true /\
    has_flag error_code Legacy.CAN_ERR_CRC = true /\
    has_flag error_code Legacy.CAN_ERR_BIT_DOMINANT = false.
Proof.
  destruct (parse_err_frame_decodes
              (mkFrame 0xFFFFFFFF 0x20000040 8 0 0 0
                 [0; 0; 0x04; 0x08; 0; 0; 5; 2] 0))
    as (code & Hparse & _ & _ & Hexample).
  - cbn. lia.
  - exists code. split; [ exact Hparse | ].
    destruct Hexample as (H1 & H2 & H3 & H4 & _); [ reflexivity .. | ].
    auto.
Defined.

(** The decode scenario of the specification, section 8, does not hold as
    written (it names BIT_DOMINANT): the frame with [can_id] bit
    0x40 set and data [0,0,0x04,0x08,0,0,5,2] decodes to 0x211, that is
    BUSOFF | STUFF | CRC; BIT_DOMINANT (0x100) is not in it. *)
Lemma parse_err_frame_scenario_counterexample :
  let f := mkFrame 0xFFFFFFFF 0x20000040 8 0 0 0
             [0; 0; 0x04; 0x08; 0; 0; 5; 2] 0 in
  has_flag (can_id f) 0x40 = true /\
  Legacy.parse_err_frame f = Returned (0x211, 5, 2) /\
  ~ (exists error_code tx rx,
        Legacy.parse_err_frame f = Returned (error_code, tx, rx) /\
        has_flag error_code Legacy.CAN_ERR_BUSOFF = true /\
        has_flag error_code Legacy.CAN_ERR_STUFF = true /\
        has_flag error_code Legacy.CAN_ERR_BIT_DOMINANT = true /\
        tx = 5 /\ rx = 2).
Proof.
  cbv zeta. split; [ reflexivity | ]. split; [ reflexivity | ].
  intros (code & tx & rx & Hparse & _ & _ & Hdom & _).
  vm_compute in Hparse. injection Hparse as <- _ _.
  vm_compute in Hdom. discriminate.
Qed.

(** C5. The else-if precedence of the decoder: on every frame with its 8
    data bytes the decoder returns, and in everything it returns
    RX_TX_WARNING and RX_TX_PASSIVE are never both set; when [data[1]]
    has both bit 0x04 and bit 0x10, RX_TX_WARNING is set and
    RX_TX_PASSIVE is not. *)
Theorem warning_wins_over_passive (f : GsUsbFrame) :
  ((8 <= length (data f))%nat ->
   exists error_code tx rx,
     Legacy.parse_err_frame f = Returned (error_code, tx, rx)) /\
  (forall error_code tx rx,
      Legacy.parse_err_frame f = Returned (error_code, tx, rx) ->
      has_flag error_code Legacy.CAN_ERR_RX_TX_WARNING
        && has_flag error_code Legacy.CAN_ERR_RX_TX_PASSIVE = false /\
      (has_flag (nth 1 (data f) 0) 0x04 = true ->
       has_flag (nth 1 (data f) 0) 0x10 = true ->
       has_flag error_code Legacy.CAN_ERR_RX_TX_WARNING = true /\
       has_flag error_code Legacy.CAN_ERR_RX_TX_PASSIVE = false)).
Proof.
  split.
  - intros Hlen. rewrite (parse_err_frame_table f Hlen). eauto.
  - intros code tx rx Hparse.
    pose proof (parse_err_frame_Returned_inv _ _ Hparse) as Hlen.
    rewrite (parse_err_frame_table f Hlen) in Hparse.
    injection Hparse as <- _ _.
    pose proof (error_flags_spec_bits f) as Hbits. cbv zeta in Hbits.
    destruct Hbits as (_ & Hw & Hp & _).
    rewrite Hw, Hp. unfold has_flag.
    rewrite (py_bool_land_mask (nth 1 (data f) 0) 0x04 2),
      (py_bool_land_mask (nth 1 (data f) 0) 0x10 4) by (lia || reflexivity).
    split.
    + destruct (Z.testbit (nth 1 (data f) 0) 2); reflexivity.
    + intros -> ->. split; reflexivity.
Qed.

(** The precedence at a frame whose [data[1]] is 0x14. *)
Lemma warning_wins_over_passive_witness :
  exists error_code tx rx,
    Legacy.parse_err_frame
      (mkFrame 0 0x20000004 8 0 0 0 [0; 0x14; 0; 0; 0; 0; 0; 0] 0)
    = Returned (error_code, tx, rx) /\
    has_flag error_code Legacy.CAN_ERR_RX_TX_WARNING = true /\
    has_flag error_code Legacy.CAN_ERR_RX_TX_PASSIVE = false.
Proof.
  pose proof (warning_wins_over_passive
                (mkFrame 0 0x20000004 8 0 0 0 [0; 0x14; 0; 0; 0; 0; 0; 0] 0))
    as [Hreturns Hflags].
  destruct Hreturns as (code & tx & rx & Hparse); [ cbn; lia | ].
  exists code, tx, rx. split; [ exact Hparse | ].
  destruct (Hflags code tx rx Hparse) as [_ Hboth].
  apply Hboth; reflexivity.
Defined.

(** ** Bit timing *)

(** One call of [set_timing]: the payload is packed and handed to one
    control transfer, whose exception, if any, propagates. *)
Lemma set_timing_run (prop_seg phase_seg1 phase_seg2 sjw brp : Z)
    (payload : list Z) (dev : UsbDevice) (h : list call) :
  Struct.pack "5I" [prop_seg; phase_seg1; phase_seg2; sjw; brp]
  = Returned payload ->
  GsUsb.set_timing prop_seg phase_seg1 phase_seg2 sjw brp dev h
  = (match dev_ctrl_transfer dev h 0x41 _GS_USB_BREQ_BITTIMING 0 0
             (PayloadOut payload) with
     | Returned _ => Returned tt
     | Raised e => Raised e
     end,
     h ++ [CallCtrlTransfer 0x41 _GS_USB_BREQ_BITTIMING 0 0
             (PayloadOut payload)]).
Proof.
  intros Hpack. unfold GsUsb.set_timing, bind, lift, ctrl_transfer, ret.
  rewrite Hpack. now destruct (dev_ctrl_transfer _ _ _ _ _ _ _).
Qed.

(** C3. For every bitrate in the whitelist, [set_bitrate] makes exactly
    the call [set_timing(1, phase_seg1, phase_seg2, 1, brp)] with the
    table's row for that bitrate (500000 gives (12, 2, 6), 1000000 gives
    (11, 2, 3)): one BITTIMING control transfer of request type 0x41 whose
    payload is the five little-endian u32 values, and it returns True once
    that transfer has returned (an exception of the transfer propagates).
    For every other bitrate it makes no call on the device and returns
    False. *)
Theorem set_bitrate_follows_table
    (bitrate : Z) (dev : UsbDevice) (h : list call) :
  match timing_for_bitrate_spec bitrate with
  | Some (phase_seg1, phase_seg2, brp) =>
      let payload := timing_payload 1 phase_seg1 phase_seg2 1 brp in
      GsUsb.set_bitrate bitrate dev h
      = bind (GsUsb.set_timing 1 phase_seg1 phase_seg2 1 brp)
          (fun _ => ret true) dev h /\
      Struct.pack "5I" [1; phase_seg1; phase_seg2; 1; brp]
      = Returned payload /\
      GsUsb.set_bitrate bitrate dev h
      = (match dev_ctrl_transfer dev h 0x41 _GS_USB_BREQ_BITTIMING 0 0
                 (PayloadOut payload) with
         | Returned _ => Returned true
         | Raised e => Raised e
         end,
         h ++ [CallCtrlTransfer 0x41 _GS_USB_BREQ_BITTIMING 0 0
                 (PayloadOut payload)])
  | None =>
      GsUsb.set_bitrate bitrate dev h = (Returned false, h)
  end /\
  timing_for_bitrate_spec 500000 = Some (12, 2, 6) /\
  timing_for_bitrate_spec 1000000 = Some (11, 2, 3) /\
  timing_for_bitrate_spec 999 = None /\
  (In bitrate (map fst timing_table_spec)
   <-> timing_for_bitrate_spec bitrate <> None).
Proof.
  assert (Hrow : forall ps1 ps2 brp,
    Struct.pack "5I" [1; ps1; ps2; 1; brp]
    = Returned (timing_payload 1 ps1 ps2 1 brp) ->
    bind (GsUsb.set_timing 1 ps1 ps2 1 brp) (fun _ => ret true) dev h
    = (match dev_ctrl_transfer dev h 0x41 _GS_USB_BREQ_BITTIMING 0 0
               (PayloadOut (timing_payload 1 ps1 ps2 1 brp)) with
       | Returned _ => Returned true
       | Raised e => Raised e
       end,
       h ++ [CallCtrlTransfer 0x41 _GS_USB_BREQ_BITTIMING 0 0
               (PayloadOut (timing_payload 1 ps1 ps2 1 brp))])).
  { intros ps1 ps2 brp Hpack. unfold bind at 1.
    rewrite (set_timing_run _ _ _ _ _ _ dev h Hpack).
    now destruct (dev_ctrl_transfer _ _ _ _ _ _ _). }
  split; [ | split; [ reflexivity | split; [ reflexivity | split;
    [ reflexivity | ] ] ] ].
  - unfold timing_for_bitrate_spec, timing_table_spec, GsUsb.set_bitrate.
    cbn [find fst snd option_map].
    rewrite !(Z.eqb_sym _ bitrate).
    repeat match goal with
           | |- context [bitrate =? ?k] =>
               destruct (Z.eqb_spec bitrate k) as [-> | ?];
               [ cbn [option_map snd];
                 split; [ reflexivity | split; [ reflexivity | ] ];
                 apply Hrow; reflexivity | ]
           end.
    reflexivity.
  - unfold timing_for_bitrate_spec, timing_table_spec.
    cbn [find fst snd option_map map In].
    rewrite !(Z.eqb_sym _ bitrate).
    repeat match goal with
           | |- context [bitrate =? ?k] =>
               destruct (Z.eqb_spec bitrate k) as [-> | ?];
               [ cbn [option_map]; split; [ congruence | tauto ] | ]
           end.
    cbn [option_map]. split; [ intuition congruence | congruence ].
Qed.

(** ** Start and stop *)

Lemma pack_II (mode_ mode : Z) :
  0 <= mode_ < 2 ^ 32 -> 0 <= mode < 2 ^ 32 ->
  Struct.pack "II" [mode_; mode] = Returned (mode_payload mode_ mode).
Proof.
  intros H1 H2. unfold Struct.pack. rewrite StructFacts.format_II.
  cbn [Struct.pack_codes]. rewrite !in_range_I by assumption.
  reflexivity.
Qed.

(** [stop] on any device: one mode transfer with both words zero; its
    [USBError] is caught, any other exception propagates. *)
Lemma stop_run (dev : UsbDevice) (h : list call) :
  GsUsb.stop dev h
  = (match dev_ctrl_transfer dev h 0x41 _GS_USB_BREQ_MODE 0 0
             (PayloadOut (mode_payload 0 0)) with
     | Returned _ => Returned tt
     | Raised e => if is_USBError e then Returned tt else Raised e
     end,
     h ++ [CallCtrlTransfer 0x41 _GS_USB_BREQ_MODE 0 0
             (PayloadOut (mode_payload 0 0))]).
Proof.
  unfold GsUsb.stop, bind at 1, lift.
  rewrite pack_II by (cbn; lia).
  unfold try_except_USBError, bind, ctrl_transfer, ret.
  destruct (dev_ctrl_transfer _ _ _ _ _ _ _) as [ r | e ];
    [ reflexivity | ].
  now destruct (is_USBError e).
Qed.

(** C4 (as amended). For every device handle whose mode control transfer
    raises [usb.core.USBError], [stop] catches it: it has issued the
    transfer (request type 0x41, MODE, payload of eight zero bytes) and
    returns normally, so the failure does not propagate as an
    exception. *)
Theorem stop_swallows_USBError (dev : UsbDevice) (h : list call) :
  dev_ctrl_transfer dev h 0x41 _GS_USB_BREQ_MODE 0 0
    (PayloadOut [0; 0; 0; 0; 0; 0; 0; 0])
  = Raised USBError ->
  GsUsb.stop dev h
  = (Returned tt,
     h ++ [CallCtrlTransfer 0x41 _GS_USB_BREQ_MODE 0 0
             (PayloadOut [0; 0; 0; 0; 0; 0; 0; 0])]).
Proof.
  intros Hraise. rewrite stop_run.
  change (mode_payload 0 0) with [0; 0; 0; 0; 0; 0; 0; 0].
  now rewrite Hraise.
Qed.

(** [stop] on an unplugged adapter returns normally. *)
Lemma stop_swallows_USBError_witness :
  GsUsb.stop detached_device []
  = (Returned tt,
     [CallCtrlTransfer 0x41 _GS_USB_BREQ_MODE 0 0
        (PayloadOut [0; 0; 0; 0; 0; 0; 0; 0])]).
Proof.
  apply (stop_swallows_USBError detached_device []). reflexivity.
Defined.

(** Not every error of the transfer is swallowed: the handler of [stop]
    names [usb.core.USBError] only.  When the control transfer raises an
    exception of another class ([NotImplementedError], which pyusb's
    libusb backend raises for an operation the platform does not
    support), [stop] ends in that exception instead of returning. *)
Lemma stop_other_exception_counterexample :
  let dev := raising_device (OtherException "NotImplementedError") in
  dev_ctrl_transfer dev [] 0x41 _GS_USB_BREQ_MODE 0 0
    (PayloadOut [0; 0; 0; 0; 0; 0; 0; 0])
  = Raised (OtherException "NotImplementedError") /\
  GsUsb.stop dev []
  = (Raised (OtherException "NotImplementedError"),
     [CallCtrlTransfer 0x41 _GS_USB_BREQ_MODE 0 0
        (PayloadOut [0; 0; 0; 0; 0; 0; 0; 0])]) /\
  ~ (exists result, fst (GsUsb.stop dev []) = Returned result).
Proof.
  cbv zeta. split; [ reflexivity | ]. split; [ reflexivity | ].
  intros [result Hresult]. vm_compute in Hresult. discriminate.
Qed.

(** Whatever the device does, [stop] never ends in [USBError]; an
    exception of another class is not caught by the handler. *)
Lemma stop_never_raises_USBError (dev : UsbDevice) (h : list call) :
  fst (GsUsb.stop dev h) <> Raised USBError.
Proof.
  rewrite stop_run. cbn [fst].
  destruct (dev_ctrl_transfer _ _ _ _ _ _ _) as [ r | e ];
    [ discriminate | ].
  destruct e; cbn; discriminate.
Qed.

(** The prologue makes no control transfer. *)
Lemma start_prologue_calls (platform_system : string)
    (dev : UsbDevice) (h : list call) :
  exists calls,
    snd (start_prologue platform_system dev h) = h ++ calls /\
    filter is_ctrl_transfer calls = [].
Proof.
  unfold start_prologue, bind, reset, is_kernel_driver_active,
    detach_kernel_driver, ret.
  destruct (dev_reset dev h) as [ [] | e ];
    [ | exists [CallReset]; split; reflexivity ].
  destruct (negb (str_in "windows" (lower platform_system)));
    [ | exists [CallReset]; split; reflexivity ].
  destruct (dev_is_kernel_driver_active dev _ 0) as [ [ | ] | e ];
    cbn [snd]; rewrite <- ?app_assoc; eexists; split;
    try reflexivity; reflexivity.
Qed.

Lemma start_after_prologue (platform_system : string) (mode : Z)
    (dev : UsbDevice) (h : list call) :
  GsUsb.start platform_system mode dev h
  = (start_prologue platform_system ;;
     payload <- lift (Struct.pack "II" [1; Z.lor mode (Z.shiftl 1 4)]) ;;
     ctrl_transfer 0x41 _GS_USB_BREQ_MODE 0 0 (PayloadOut payload) ;;
     ret tt)%io dev h.
Proof.
  unfold GsUsb.start, start_prologue, bind.
  destruct (reset dev h) as [ [ [] | e ] h1 ]; reflexivity.
Qed.

Lemma lor_u32 (a b : Z) :
  0 <= a < 2 ^ 32 -> 0 <= b < 2 ^ 32 -> 0 <= Z.lor a b < 2 ^ 32.
Proof.
  intros Ha Hb.
  assert (Hnn : 0 <= Z.lor a b) by (apply Z.lor_nonneg; lia).
  split; [ exact Hnn | ].
  destruct (Z.eq_dec (Z.lor a b) 0) as [ -> | Hnz ]; [ lia | ].
  apply Z.log2_lt_pow2; [ lia | ].
  rewrite Z.log2_lor by lia.
  apply Z.max_lub_lt.
  - destruct (Z.eq_dec a 0) as [ -> | ]; [ cbn; lia | ].
    apply Z.log2_lt_pow2; lia.
  - destruct (Z.eq_dec b 0) as [ -> | ]; [ cbn; lia | ].
    apply Z.log2_lt_pow2; lia.
Qed.

(** C7 (as amended). For every mode argument that fits an unsigned
    32-bit word, once the reset and kernel-driver steps of [start] that
    come before it have returned, [start]
    issues exactly one control transfer: request type 0x41, request MODE,
    wValue 0, wIndex 0, with the 8-byte payload of the two little-endian
    u32 words 1 (host format) and [mode | 1 << 4].  Bit 4, the
    hardware-timestamp bit, is set in the transferred mode word whatever
    the caller's mode, and the caller's other bits are unchanged. *)
Theorem start_issues_one_mode_transfer
    (platform_system : string) (mode : Z)
    (dev : UsbDevice) (h h1 : list call) :
  0 <= mode < 2 ^ 32 ->
  start_prologue platform_system dev h = (Returned tt, h1) ->
  let mode_bits := Z.lor mode (Z.shiftl 1 4) in
  let payload := Struct.le_bytes 4 1 ++ Struct.le_bytes 4 mode_bits in
  let transfer :=
    CallCtrlTransfer 0x41 _GS_USB_BREQ_MODE 0 0 (PayloadOut payload) in
  GsUsb.start platform_system mode dev h
  = (match dev_ctrl_transfer dev h1 0x41 _GS_USB_BREQ_MODE 0 0
             (PayloadOut payload) with
     | Returned _ => Returned tt
     | Raised e => Raised e
     end,
     h1 ++ [transfer]) /\
  (exists calls,
      snd (GsUsb.start platform_system mode dev h) = h ++ calls /\
      filter is_ctrl_transfer calls = [transfer]) /\
  length payload = 8%nat /\
  Struct.unpack "II" payload = Returned [1; mode_bits] /\
  Z.testbit mode_bits 4 = true /\
  (forall i, i <> 4 -> Z.testbit mode_bits i = Z.testbit mode i).
Proof.
  intros Hmode Hprologue mode_bits payload transfer.
  assert (Hbits : 0 <= mode_bits < 2 ^ 32).
  { apply lor_u32; [ exact Hmode | cbn; lia ]. }
  assert (Hstart :
    GsUsb.start platform_system mode dev h
    = (match dev_ctrl_transfer dev h1 0x41 _GS_USB_BREQ_MODE 0 0
               (PayloadOut payload) with
       | Returned _ => Returned tt
       | Raised e => Raised e
       end,
       h1 ++ [transfer])).
  { rewrite start_after_prologue. unfold bind at 1. rewrite Hprologue.
    unfold bind at 1, lift.
    fold mode_bits. rewrite (pack_II 1 mode_bits) by (cbn; lia).
    unfold bind, ctrl_transfer, ret.
    now destruct (dev_ctrl_transfer _ _ _ _ _ _ _). }
  split; [ exact Hstart | ].
  split.
  { destruct (start_prologue_calls platform_system dev h)
      as (calls & Hcalls & Hnone).
    rewrite Hprologue in Hcalls. cbn [snd] in Hcalls.
    exists (calls ++ [transfer]). rewrite Hstart. cbn [snd].
    split.
    - rewrite Hcalls. now rewrite app_assoc.
    - rewrite filter_app, Hnone. reflexivity. }
  split; [ reflexivity | ].
  split.
  { pose proof (pack_II 1 mode_bits ltac:(cbn; lia) Hbits) as Hpack.
    unfold Struct.pack in Hpack. rewrite StructFacts.format_II in Hpack.
    pose proof (StructFacts.pack_codes_Returned_inv _ _ _ _ Hpack) as Hall.
    destruct (StructFacts.pack_unpack_codes _ _ 0 Hall)
      as (bs & Hbs & Hsize & Hback).
    rewrite Hpack in Hbs. injection Hbs as <-.
    change (mode_payload 1 mode_bits) with payload in Hback.
    unfold Struct.unpack. rewrite StructFacts.format_II.
    change (Z.of_nat (length payload)
            =? Struct.calcsize_codes [Struct.CodeI; Struct.CodeI] 0)
      with true.
    cbv iota. now rewrite Hback. }
  split.
  - unfold mode_bits. rewrite Z.lor_spec.
    change (Z.shiftl 1 4) with (2 ^ 4).
    rewrite Z.pow2_bits_true by lia. apply orb_true_r.
  - intros i Hi. unfold mode_bits. rewrite Z.lor_spec.
    change (Z.shiftl 1 4) with (2 ^ 4).
    destruct (Z.lt_ge_cases i 0) as [Hneg | Hpos].
    + now rewrite !Z.testbit_neg_r by assumption.
    + rewrite Z.pow2_bits_false by lia. apply orb_false_r.
Qed.

(** [start] in listen-only mode on Linux: reset, kernel-driver detach,
    then the one mode transfer with mode word 0x11. *)
Lemma start_issues_one_mode_transfer_witness :
  GsUsb.start "Linux" GS_USB_MODE_LISTEN_ONLY (replying_device []) []
  = (Returned tt,
     [CallReset; CallIsKernelDriverActive 0; CallDetachKernelDriver 0;
      CallCtrlTransfer 0x41 _GS_USB_BREQ_MODE 0 0
        (PayloadOut [1; 0; 0; 0; 0x11; 0; 0; 0])]).
Proof.
  apply (start_issues_one_mode_transfer "Linux" GS_USB_MODE_LISTEN_ONLY
           (replying_device []) []
           [CallReset; CallIsKernelDriverActive 0; CallDetachKernelDriver 0]).
  - cbn. lia.
  - reflexivity.
Defined.

(** [start] does not issue a mode transfer on every run: the reset comes
    first and is unguarded, so on a device whose [reset] raises, [start]
    ends in that exception and has made no control transfer at all. *)
Lemma start_no_transfer_counterexample :
  let run := GsUsb.start "Linux" GS_USB_MODE_LISTEN_ONLY detached_device [] in
  0 <= GS_USB_MODE_LISTEN_ONLY < 2 ^ 32 /\
  run = (Raised USBError, [CallReset]) /\
  filter is_ctrl_transfer (snd run) = [] /\
  ~ (exists transfer, filter is_ctrl_transfer (snd run) = [transfer]).
Proof.
  cbv zeta. split; [ cbn; lia | ]. split; [ reflexivity | ].
  split; [ reflexivity | ].
  intros [transfer Htransfer]. vm_compute in Htransfer. discriminate.
Qed.

(** ** Reading frames *)

Lemma unpack_frame_bad_length (buf : list Z) :
  length buf <> 24%nat -> GsUsb.unpack_frame buf = Raised StructError.
Proof.
  intros Hlen. unfold GsUsb.unpack_frame, Struct.unpack.
  rewrite StructFacts.format_2I12BI, StructFacts.calcsize_2I12BI.
  destruct (Z.eqb_spec (Z.of_nat (length buf)) 24) as [Heq | _];
    [ lia | reflexivity ].
Qed.

Lemma unpack_frame_24 (buf : list Z) :
  length buf = 24%nat -> GsUsb.unpack_frame buf = Returned (frame_of_buffer buf).
Proof.
  intros Hlen.
  destruct buf as [ | b0 [ | b1 [ | b2 [ | b3 [ | b4 [ | b5 [ | b6 [ | b7
    [ | b8 [ | b9 [ | b10 [ | b11 [ | b12 [ | b13 [ | b14 [ | b15 [ | b16
    [ | b17 [ | b18 [ | b19 [ | b20 [ | b21 [ | b22 [ | b23 [ | ? ? ]
    ] ] ] ] ] ] ] ] ] ] ] ] ] ] ] ] ] ] ] ] ] ] ] ]; try discriminate Hlen.
  clear Hlen.
  transitivity
    (Returned
       (mkFrame (Struct.le_value [b0; b1; b2; b3])
          (Struct.le_value [b4; b5; b6; b7])
          (Struct.le_value [b8]) (Struct.le_value [b9])
          (Struct.le_value [b10]) (Struct.le_value [b11])
          (map (fun b => Struct.le_value [b])
             [b12; b13; b14; b15; b16; b17; b18; b19])
          (Struct.le_value [b20; b21; b22; b23]))); [ reflexivity | ].
  unfold frame_of_buffer.
  cbn [firstn skipn nth map Struct.le_value].
  rewrite !Z.mul_0_r, !Z.add_0_r. reflexivity.
Qed.

(** [read] once the device has handed over [buf]. *)
Lemma read_run (frame0 : GsUsbFrame) (timeout_ms : Z) (buf : list Z)
    (dev : UsbDevice) (h : list call) :
  dev_read dev h 0x81 24 timeout_ms = Returned buf ->
  GsUsb.read frame0 timeout_ms dev h
  = (match GsUsb.unpack_frame buf with
     | Returned f => Returned (true, f)
     | Raised e => Raised e
     end,
     h ++ [CallRead 0x81 24 timeout_ms]).
Proof.
  intros Hread.
  unfold GsUsb.read, bind, try_except_USBError, lift, usb_read, ret,
    sizeof_frame, GS_USB_FRAME_SIZE.
  rewrite Hread. now destruct (GsUsb.unpack_frame buf).
Qed.

(** What [read] does with the bytes handed over.  For every buffer
    whose length is not exactly 24
    bytes, [unpack("2I12BI", ...)] fails with [struct.error]; [read] does
    not catch it (its handler covers only [usb.core.USBError] of the
    device read), so it propagates to the caller of [read] as an exception
    instead of a returned result.  For a 24-byte buffer nothing else is
    validated: every such buffer is decoded, field by field, whatever its
    dlc and flag bytes, and [read] returns True. *)
Theorem read_length_check_only
    (buf : list Z) (frame0 : GsUsbFrame) (timeout_ms : Z)
    (dev : UsbDevice) (h : list call) :
  dev_read dev h 0x81 24 timeout_ms = Returned buf ->
  (length buf <> 24%nat ->
   GsUsb.unpack_frame buf = Raised StructError /\
   GsUsb.read frame0 timeout_ms dev h
   = (Raised StructError, h ++ [CallRead 0x81 24 timeout_ms])) /\
  (length buf = 24%nat ->
   GsUsb.unpack_frame buf = Returned (frame_of_buffer buf) /\
   GsUsb.read frame0 timeout_ms dev h
   = (Returned (true, frame_of_buffer buf),
      h ++ [CallRead 0x81 24 timeout_ms])).
Proof.
  intros Hread. rewrite (read_run frame0 timeout_ms buf dev h Hread).
  split; intros Hlen.
  - rewrite (unpack_frame_bad_length buf Hlen). split; reflexivity.
  - rewrite (unpack_frame_24 buf Hlen). split; reflexivity.
Qed.

(** A 20-byte frame (what an adapter without hardware timestamps sends)
    makes [read] raise; a 24-byte frame with dlc 0xFF is accepted. *)
Lemma read_length_check_only_witness :
  GsUsb.read (GsUsbFrame_init 0 (DataList [])) 100
    (replying_device (repeat 0 20)) []
  = (Raised StructError, [CallRead 0x81 24 100]) /\
  fst (GsUsb.read (GsUsbFrame_init 0 (DataList [])) 100
         (replying_device (repeat 0 8 ++ [0xFF] ++ repeat 0 15)) [])
  = Returned (true, mkFrame 0 0 0xFF 0 0 0 [0; 0; 0; 0; 0; 0; 0; 0] 0).
Proof.
  split.
  - apply (read_length_check_only (repeat 0 20)
             (GsUsbFrame_init 0 (DataList [])) 100
             (replying_device (repeat 0 20)) []).
    + reflexivity.
    + cbn. lia.
  - destruct (read_length_check_only (repeat 0 8 ++ [0xFF] ++ repeat 0 15)
                (GsUsbFrame_init 0 (DataList [])) 100
                (replying_device (repeat 0 8 ++ [0xFF] ++ repeat 0 15)) []
                eq_refl) as [_ Hok].
    destruct (Hok eq_refl) as [_ Hread]. rewrite Hread. reflexivity.
Defined.

(** C6. The length failure of the decoder is not reported as a result.
    The docstring of [read] promises "return True if success else False",
    and the failure of the device read is turned into False; but
    [unpack] sits outside the [try], so on a buffer that is not 24 bytes
    long (here the 20-byte frame an adapter sends without hardware
    timestamp) [read] ends in an uncaught [struct.error] and returns no
    result at all. *)
Theorem read_short_buffer_raises :
  let dev := replying_device (repeat 0 20) in
  let frame0 := GsUsbFrame_init 0 (DataList []) in
  length (repeat 0 20) <> 24%nat /\
  dev_read dev [] 0x81 24 100 = Returned (repeat 0 20) /\
  fst (GsUsb.read frame0 100 dev []) = Raised StructError /\
  ~ (exists result, fst (GsUsb.read frame0 100 dev []) = Returned result).
Proof.
  cbv zeta. split; [ cbn; lia | ]. split; [ reflexivity | ].
  split; [ reflexivity | ].
  intros [result Hresult]. vm_compute in Hresult. discriminate.
Qed.

(** ** Device info *)

Lemma unpack_4B2I (buf : list Z) :
  length buf = 12%nat ->
  Struct.unpack "4B2I" buf
  = Returned [nth 0 buf 0; nth 1 buf 0; nth 2 buf 0; nth 3 buf 0;
              Struct.le_value (firstn 4 (skipn 4 buf));
              Struct.le_value (firstn 4 (skipn 8 buf))].
Proof.
  intros Hlen.
  destruct buf as [ | b0 [ | b1 [ | b2 [ | b3 [ | b4 [ | b5 [ | b6 [ | b7
    [ | b8 [ | b9 [ | b10 [ | b11 [ | ? ? ] ] ] ] ] ] ] ] ] ] ] ] ];
    try discriminate Hlen.
  clear Hlen.
  transitivity
    (Returned
       (map (fun b => Struct.le_value [b]) [b0; b1; b2; b3]
          ++ [Struct.le_value [b4; b5; b6; b7];
              Struct.le_value [b8; b9; b10; b11]])); [ reflexivity | ].
  cbn [firstn skipn nth map app Struct.le_value].
  rewrite !Z.mul_0_r, !Z.add_0_r. reflexivity.
Qed.

Lemma string_append_assoc (s1 s2 s3 : string) :
  ((s1 ++ s2) ++ s3 = s1 ++ (s2 ++ s3))%string.
Proof.
  induction s1 as [ | c s1 IH ]; cbn [String.append].
  - reflexivity.
  - now rewrite IH.
Qed.

(** C8 (as amended). [device_info] issues one control transfer (request
    type 0xC1, request DEVICE_CONFIG, wValue 0, wIndex 0) asking for
    exactly 12 bytes, decodes the answer as 4 bytes followed by two
    little-endian u32, divides each u32 by 10, and returns the
    pre-formatted string "fw: <first / 10> hw: <second / 10>", each
    quotient printed with one fractional digit; it does not return a
    structured value. *)
Theorem device_info_returns_formatted_string
    (dev : UsbDevice) (h : list call) (buf : list Z) :
  dev_ctrl_transfer dev h 0xC1 _GS_USB_BREQ_DEVICE_CONFIG 0 0 (LengthIn 12)
  = Returned buf ->
  length buf = 12%nat ->
  let fw := Struct.le_value (firstn 4 (skipn 4 buf)) in
  let hw := Struct.le_value (firstn 4 (skipn 8 buf)) in
  GsUsb.device_info dev h
  = (Returned
       (PyStr ("fw: " ++ str_int (fw / 10) ++ "." ++ str_int (fw mod 10)
               ++ " hw: " ++ str_int (hw / 10) ++ "." ++ str_int (hw mod 10))),
     h ++ [CallCtrlTransfer 0xC1 _GS_USB_BREQ_DEVICE_CONFIG 0 0
             (LengthIn 12)]) /\
  Struct.unpack "4B2I" buf
  = Returned [nth 0 buf 0; nth 1 buf 0; nth 2 buf 0; nth 3 buf 0; fw; hw].
Proof.
  intros Hreply Hlen fw hw.
  pose proof (unpack_4B2I buf Hlen) as Hunpack. fold fw hw in Hunpack.
  split; [ | exact Hunpack ].
  unfold GsUsb.device_info, bind, ctrl_transfer, lift, ret.
  rewrite Hreply, Hunpack. cbn [nth]. unfold str_div10.
  do 3 f_equal.
  now rewrite !string_append_assoc.
Qed.

(** Firmware 2.0 on hardware 1.0. *)
Lemma device_info_returns_formatted_string_witness :
  GsUsb.device_info
    (replying_device [0; 0; 0; 0; 20; 0; 0; 0; 10; 0; 0; 0]) []
  = (Returned (PyStr "fw: 2.0 hw: 1.0"),
     [CallCtrlTransfer 0xC1 _GS_USB_BREQ_DEVICE_CONFIG 0 0 (LengthIn 12)]).
Proof.
  apply (device_info_returns_formatted_string
           (replying_device [0; 0; 0; 0; 20; 0; 0; 0; 10; 0; 0; 0]) []
           [0; 0; 0; 0; 20; 0; 0; 0; 10; 0; 0; 0]);
    reflexivity.
Defined.

(** What [device_info] returns is a string, not a value with
    [firmware_version] and [hardware_version] fields as the specification
    has it. *)
Lemma device_info_structured_counterexample :
  let dev := replying_device [0; 0; 0; 0; 20; 0; 0; 0; 10; 0; 0; 0] in
  fst (GsUsb.device_info dev []) = Returned (PyStr "fw: 2.0 hw: 1.0") /\
  ~ (exists attrs, fst (GsUsb.device_info dev []) = Returned (PyRecord attrs)).
Proof.
  cbv zeta. split; [ reflexivity | ].
  intros [attrs Hattrs]. vm_compute in Hattrs. discriminate.
Qed.

(** * Further properties of the driver *)

(** ** Sending *)

Section Sending.
Import Struct StructFacts.

Lemma Forall2_in_range_bytes (vs : list Z) :
  Forall2 (fun k v => in_range k v = true) (repeat CodeB (length vs)) vs
  <-> forallb (in_range CodeB) vs = true.
Proof.
  induction vs as [ | v vs IH ]; cbn [length repeat forallb].
  - split; [ reflexivity | constructor ].
  - rewrite andb_true_iff. split.
    + intros H. inversion H; subst. split; [ assumption | now apply IH ].
    + intros [Hv Hvs]. constructor; [ assumption | now apply IH ].
Qed.

(** [pack] at the item level succeeds exactly when the arguments fit. *)
Lemma pack_codes_Returned_iff (ks : list code) (args : list Z) (offset : Z) :
  (exists bs, pack_codes ks args offset = Returned bs)
  <-> Forall2 (fun k v => in_range k v = true) ks args.
Proof.
  split.
  - intros [bs H]. eapply pack_codes_Returned_inv; eassumption.
  - intros H. destruct (pack_unpack_codes ks args offset H) as (bs & Hbs & _).
    eauto.
Qed.

Lemma pack_frame_packable (f : GsUsbFrame) :
  (exists buf, GsUsb.pack_frame f = Returned buf) <-> packable f = true.
Proof.
  unfold GsUsb.pack_frame, pack. rewrite format_2I12BI.
  rewrite pack_codes_Returned_iff. unfold packable.
  rewrite !andb_true_iff. cbn [app].
  split.
  - intros H.
    inversion H as [ | ? ? ? ? He H1 ]; subst; clear H.
    inversion H1 as [ | ? ? ? ? Hc H2 ]; subst; clear H1.
    inversion H2 as [ | ? ? ? ? Hdlc H3 ]; subst; clear H2.
    inversion H3 as [ | ? ? ? ? Hch H4 ]; subst; clear H3.
    inversion H4 as [ | ? ? ? ? Hfl H5 ]; subst; clear H4.
    inversion H5 as [ | ? ? ? ? Hrs H6 ]; subst; clear H5.
    change (Forall2 (fun k v => in_range k v = true)
              (repeat CodeB 8 ++ [CodeI]) (data f ++ [timestamp_us f]))
      in H6.
    apply Forall2_app_inv_l in H6.
    destruct H6 as (bytes & last & Hbytes & Hlast & Heq).
    inversion Hlast as [ | ? ts ? ? Hts Hnil ]; subst.
    inversion Hnil; subst.
    apply app_inj_tail in Heq. destruct Heq as [Hd Hl]. subst.
    pose proof (Forall2_length Hbytes) as Hlen.
    rewrite repeat_length in Hlen.
    rewrite Hlen in Hbytes. apply Forall2_in_range_bytes in Hbytes.
    repeat split; try assumption. apply Nat.eqb_eq. congruence.
  - intros ((((((((He & Hc) & Hdlc) & Hch) & Hfl) & Hrs) & Hlen) & Hd) & Hts).
    apply Nat.eqb_eq in Hlen.
    do 2 (constructor; [ assumption | ]).
    replace (can_dlc f :: channel f :: flags f :: reserved f
               :: data f ++ [timestamp_us f])
      with ([can_dlc f; channel f; flags f; reserved f] ++ data f
              ++ [timestamp_us f]) by reflexivity.
    change (repeat CodeB 12 ++ [CodeI])
      with (repeat CodeB 4 ++ repeat CodeB 8 ++ [CodeI]).
    apply Forall2_app; [ repeat constructor; assumption | ].
    apply Forall2_app; [ | repeat constructor; assumption ].
    rewrite <- Hlen. now apply Forall2_in_range_bytes.
Qed.

Lemma pack_frame_not_packable (f : GsUsbFrame) :
  packable f = false -> GsUsb.pack_frame f = Raised StructError.
Proof.
  intros Hf. destruct (GsUsb.pack_frame f) as [ buf | e ] eqn:Hp.
  - assert (Ht : packable f = true) by (apply pack_frame_packable; eauto).
    congruence.
  - f_equal. unfold GsUsb.pack_frame, pack in Hp.
    rewrite format_2I12BI in Hp.
    now apply pack_codes_raises_StructError in Hp.
Qed.

End Sending.

Lemma packable_pack_frame (f : GsUsbFrame) :
  packable f = true -> GsUsb.pack_frame f = Returned (wire_layout f).
Proof.
  unfold packable. rewrite !andb_true_iff.
  intros ((((((((He & Hc) & Hdlc) & Hch) & Hfl) & Hrs) & Hlen) & Hd) & Hts).
  apply Nat.eqb_eq in Hlen.
  apply StructFacts.in_range_bound in He, Hc, Hdlc, Hch, Hfl, Hrs, Hts.
  cbn [Struct.size_of] in *.
  change (256 ^ 4) with (2 ^ 32) in *. change (256 ^ 1) with 256 in *.
  apply pack_frame_layout; try assumption.
  apply Forall_forall. intros b Hb.
  rewrite forallb_forall in Hd.
  apply (StructFacts.in_range_bound Struct.CodeB). now apply Hd.
Qed.

Lemma wire_layout_length (f : GsUsbFrame) :
  length (wire_layout f) = (16 + length (data f))%nat.
Proof.
  unfold wire_layout. rewrite !length_app, !StructFacts.le_bytes_length.
  cbn [length]. lia.
Qed.

(** X1. [send] on any frame and device.  When the frame's fields fit the
    format (three u32 words, four u8 header bytes, exactly 8 u8 data
    items), [send] makes exactly one call, a write of the 24-byte wire
    layout to endpoint 0x02, and returns True, or propagates what the
    write raised ([usb.core.USBError] included: nothing is caught).
    Otherwise it raises [struct.error] and makes no call on the device.
    It never returns False. *)
Theorem send_outcomes (f : GsUsbFrame) (dev : UsbDevice) (h : list call) :
  GsUsb.send f dev h
  = (if packable f then
       (match dev_write dev h 0x02 (wire_layout f) with
        | Returned _ => Returned true
        | Raised e => Raised e
        end,
        h ++ [CallWrite 0x02 (wire_layout f)])
     else (Raised StructError, h)) /\
  (packable f = true -> length (wire_layout f) = 24%nat) /\
  fst (GsUsb.send f dev h) <> Returned false.
Proof.
  assert (Hrun :
    GsUsb.send f dev h
    = (if packable f then
         (match dev_write dev h 0x02 (wire_layout f) with
          | Returned _ => Returned true
          | Raised e => Raised e
          end,
          h ++ [CallWrite 0x02 (wire_layout f)])
       else (Raised StructError, h))).
  { unfold GsUsb.send, bind, lift, usb_write, ret.
    destruct (packable f) eqn:Hp.
    - rewrite (packable_pack_frame f Hp).
      now destruct (dev_write dev h 2 (wire_layout f)).
    - now rewrite (pack_frame_not_packable f Hp). }
  split; [ exact Hrun | ]. split.
  - intros Hp. rewrite wire_layout_length.
    unfold packable in Hp. rewrite !andb_true_iff in Hp.
    destruct Hp as (((_ & Hlen) & _) & _).
    apply Nat.eqb_eq in Hlen. lia.
  - rewrite Hrun. destruct (packable f); cbn [fst]; [ | discriminate ].
    destruct (dev_write dev h 2 (wire_layout f)); discriminate.
Qed.

(** A 9-byte payload is refused before anything is written; an 8-byte one
    is written as 24 bytes. *)
Lemma send_outcomes_witness :
  GsUsb.send (GsUsbFrame_init 0x123 (DataList [1; 2; 3; 4; 5; 6; 7; 8; 9]))
    (replying_device []) []
  = (Raised StructError, []) /\
  length (wire_layout
            (GsUsbFrame_init 0x123 (DataList [1; 2; 3; 4; 5; 6; 7; 8])))
  = 24%nat.
Proof.
  split.
  - exact (proj1 (send_outcomes
                    (GsUsbFrame_init 0x123
                       (DataList [1; 2; 3; 4; 5; 6; 7; 8; 9]))
                    (replying_device []) [])).
  - apply (send_outcomes
             (GsUsbFrame_init 0x123 (DataList [1; 2; 3; 4; 5; 6; 7; 8]))
             (replying_device []) []).
    reflexivity.
Defined.

(** ** Reading *)

(** X2. [read] on any device.  It makes exactly one call, a read of 24
    bytes from endpoint 0x81 with the caller's timeout.  When that call
    raises [usb.core.USBError] (a timeout), [read] returns False and the
    frame keeps the attributes it had; any other exception propagates.
    When it hands over 24 bytes, [read] returns True with the frame
    decoded from them; with any other number of bytes it raises
    [struct.error]. *)
Theorem read_outcomes (frame0 : GsUsbFrame) (timeout_ms : Z)
    (dev : UsbDevice) (h : list call) :
  GsUsb.read frame0 timeout_ms dev h
  = (match dev_read dev h 0x81 24 timeout_ms with
     | Returned buf =>
         if (length buf =? 24)%nat
         then Returned (true, frame_of_buffer buf)
         else Raised StructError
     | Raised e =>
         if is_USBError e then Returned (false, frame0) else Raised e
     end,
     h ++ [CallRead 0x81 24 timeout_ms]).
Proof.
  destruct (dev_read dev h 0x81 24 timeout_ms) as [ buf | e ] eqn:Hread.
  - rewrite (read_run frame0 timeout_ms buf dev h Hread).
    destruct (Nat.eqb_spec (length buf) 24) as [Hlen | Hlen].
    + now rewrite (unpack_frame_24 buf Hlen).
    + now rewrite (unpack_frame_bad_length buf Hlen).
  - unfold GsUsb.read, bind, try_except_USBError, lift, usb_read, ret,
      sizeof_frame, GS_USB_FRAME_SIZE.
    rewrite Hread. now destruct (is_USBError e).
Qed.

(** ** Received frames can be sent back *)

Section Resend.
Import Struct StructFacts.

Lemma le_value_bounds (bs : list Z) :
  Forall (fun b => 0 <= b < 256) bs ->
  0 <= le_value bs < 256 ^ Z.of_nat (length bs).
Proof.
  induction 1 as [ | b bs Hb _ IH ].
  - cbn. lia.
  - cbn [le_value length]. rewrite Nat2Z.inj_succ, Z.pow_succ_r by lia. lia.
Qed.

(** The little-endian bytes of the value of a byte string are the byte
    string. *)
Lemma le_bytes_le_value (bs : list Z) :
  Forall (fun b => 0 <= b < 256) bs ->
  le_bytes (length bs) (le_value bs) = bs.
Proof.
  induction 1 as [ | b bs Hb _ IH ].
  - reflexivity.
  - cbn [le_value length le_bytes].
    replace ((b + 256 * le_value bs) mod 256) with b.
    + replace ((b + 256 * le_value bs) / 256) with (le_value bs).
      * now rewrite IH.
      * rewrite (Z.mul_comm 256), Z.div_add by lia.
        rewrite Z.div_small by lia. reflexivity.
    + rewrite (Z.mul_comm 256), Z.mod_add by lia.
      now rewrite Z.mod_small by lia.
Qed.

End Resend.

Ltac all_bytes :=
  repeat (apply Forall_cons; [ assumption | ]); apply Forall_nil.

(** X3. Round trip from the wire: for every buffer of 24 bytes, the frame
    [read] decodes from it is accepted by [pack("2I12BI", ...)] as [send]
    calls it, and packs to the same 24 bytes. *)
Theorem unpack_pack_frame_roundtrip (buf : list Z) :
  length buf = 24%nat ->
  Forall (fun b => 0 <= b < 256) buf ->
  exists f,
    GsUsb.unpack_frame buf = Returned f /\
    length (data f) = 8%nat /\
    packable f = true /\
    GsUsb.pack_frame f = Returned buf.
Proof.
  intros Hlen Hbytes.
  exists (frame_of_buffer buf).
  split; [ now apply unpack_frame_24 | ].
  destruct buf as [ | b0 [ | b1 [ | b2 [ | b3 [ | b4 [ | b5 [ | b6 [ | b7
    [ | b8 [ | b9 [ | b10 [ | b11 [ | b12 [ | b13 [ | b14 [ | b15 [ | b16
    [ | b17 [ | b18 [ | b19 [ | b20 [ | b21 [ | b22 [ | b23 [ | ? ? ]
    ] ] ] ] ] ] ] ] ] ] ] ] ] ] ] ] ] ] ] ] ] ] ] ]; try discriminate Hlen.
  clear Hlen.
  repeat match goal with
         | H : Forall _ (_ :: _) |- _ =>
             let Hb := fresh "Hb" in
             apply Forall_cons_iff in H; destruct H as [Hb H]
         end.
  split; [ reflexivity | ].
  assert (Hpack :
    GsUsb.pack_frame
      (frame_of_buffer
         [b0; b1; b2; b3; b4; b5; b6; b7; b8; b9; b10; b11; b12; b13; b14;
          b15; b16; b17; b18; b19; b20; b21; b22; b23])
    = Returned
        [b0; b1; b2; b3; b4; b5; b6; b7; b8; b9; b10; b11; b12; b13; b14;
         b15; b16; b17; b18; b19; b20; b21; b22; b23]).
  { rewrite pack_frame_layout.
    - unfold wire_layout, frame_of_buffer.
      cbn [firstn skipn nth echo_id can_id can_dlc channel flags reserved
           data timestamp_us].
      pose proof (le_bytes_le_value [b0; b1; b2; b3]) as H0.
      pose proof (le_bytes_le_value [b4; b5; b6; b7]) as H4.
      pose proof (le_bytes_le_value [b20; b21; b22; b23]) as H20.
      cbn [length] in H0, H4, H20.
      rewrite H0, H4, H20 by all_bytes.
      reflexivity.
    - apply (le_value_bounds [b0; b1; b2; b3]).
      all_bytes.
    - apply (le_value_bounds [b4; b5; b6; b7]).
      all_bytes.
    - apply (le_value_bounds [b20; b21; b22; b23]).
      all_bytes.
    - assumption.
    - assumption.
    - assumption.
    - assumption.
    - reflexivity.
    - cbn [frame_of_buffer data firstn skipn].
      all_bytes. }
  split; [ | exact Hpack ].
  apply pack_frame_packable. eauto.
Qed.

(** An extended data frame as it arrives from the adapter. *)
Lemma unpack_pack_frame_roundtrip_witness :
  exists f,
    GsUsb.unpack_frame
      [0xFF; 0xFF; 0xFF; 0xFF; 0x23; 0x01; 0x00; 0x80; 2; 0; 0; 0;
       0xAB; 0xCD; 0; 0; 0; 0; 0; 0; 0x40; 0x42; 0x0F; 0x00]
    = Returned f /\
    length (data f) = 8%nat /\
    packable f = true /\
    GsUsb.pack_frame f
    = Returned
        [0xFF; 0xFF; 0xFF; 0xFF; 0x23; 0x01; 0x00; 0x80; 2; 0; 0; 0;
         0xAB; 0xCD; 0; 0; 0; 0; 0; 0; 0x40; 0x42; 0x0F; 0x00].
Proof.
  apply unpack_pack_frame_roundtrip.
  - reflexivity.
  - repeat constructor; lia.
Defined.

(** ** Frames built by the constructor *)

Lemma list_of_bytes_in_range (b : list Byte.byte) :
  Forall (fun v => 0 <= v < 256) (list_of_bytes b).
Proof.
  unfold list_of_bytes. apply Forall_map, Forall_forall. intros x _.
  pose proof (Byte.to_N_bounded x). lia.
Qed.

(** X4. A frame built by the constructor can be sent: for every [can_id]
    in unsigned 32-bit range and every payload of at most 8 items, either
    a [bytes] object (whose items are bytes by type) or a list of integers
    in 0..255, the frame packs to 24 bytes whose dlc byte (offset 8) is the
    payload length and whose data bytes (offsets 12..19) are the payload
    followed by zeros, with echo id, channel, flags, reserved and
    timestamp all zero; unpacking those bytes gives the frame back. *)
Theorem constructed_frame_packs (cid : Z) (d : data_arg) :
  0 <= cid < 2 ^ 32 ->
  (length (data_items d) <= 8)%nat ->
  match d with
  | DataList l => Forall (fun v => 0 <= v < 256) l
  | DataBytes _ => True
  end ->
  let f := GsUsbFrame_init cid d in
  let n := length (data_items d) in
  let buf :=
    [0; 0; 0; 0] ++ Struct.le_bytes 4 cid ++ [Z.of_nat n; 0; 0; 0]
      ++ (data_items d ++ repeat 0 (8 - n)%nat) ++ [0; 0; 0; 0] in
  GsUsb.pack_frame f = Returned buf /\
  length buf = 24%nat /\
  GsUsb.unpack_frame buf = Returned f.
Proof.
  intros Hcid Hn Hitems f n buf.
  assert (Hbytes : Forall (fun v => 0 <= v < 256) (data_items d)).
  { destruct d as [ l | b ]; [ exact Hitems | ].
    apply list_of_bytes_in_range. }
  assert (Hdata : data f = data_items d ++ repeat 0 (8 - n)%nat).
  { unfold f, n, GsUsbFrame_init, zeros, data_items. cbn [data].
    f_equal. f_equal. destruct d; lia. }
  assert (Hdlc : can_dlc f = Z.of_nat n) by (destruct d; reflexivity).
  assert (Hlen : length (data f) = 8%nat).
  { rewrite Hdata, length_app, repeat_length. unfold n. lia. }
  assert (Hpack : GsUsb.pack_frame f = Returned (wire_layout f)).
  { apply pack_frame_layout.
    - unfold f, GsUsbFrame_init, GS_USB_ECHO_ID. cbn. lia.
    - exact Hcid.
    - unfold f. cbn. lia.
    - rewrite Hdlc. unfold n. lia.
    - unfold f. cbn. lia.
    - unfold f. cbn. lia.
    - unfold f. cbn. lia.
    - exact Hlen.
    - rewrite Hdata. apply Forall_app. split; [ assumption | ].
      apply Forall_forall. intros v Hv. apply repeat_spec in Hv. lia. }
  assert (Hbuf : wire_layout f = buf).
  { unfold wire_layout, buf. rewrite Hdata, Hdlc. reflexivity. }
  rewrite Hbuf in Hpack.
  assert (H24 : length buf = 24%nat).
  { rewrite <- Hbuf, wire_layout_length. lia. }
  split; [ exact Hpack | ]. split; [ exact H24 | ].
  unfold GsUsb.pack_frame, Struct.pack in Hpack.
  rewrite StructFacts.format_2I12BI in Hpack.
  pose proof (StructFacts.pack_codes_Returned_inv _ _ _ _ Hpack) as Hall.
  destruct (StructFacts.pack_unpack_codes _ _ 0 Hall)
    as (bs & Hbs & _ & Hback).
  rewrite Hpack in Hbs. injection Hbs as <-.
  unfold GsUsb.unpack_frame, Struct.unpack.
  rewrite StructFacts.format_2I12BI, StructFacts.calcsize_2I12BI.
  rewrite H24. cbn [Z.of_nat Pos.of_succ_nat Pos.succ Z.eqb Pos.eqb].
  rewrite Hback. cbn [app assign_frame].
  rewrite rev_unit, rev_involutive. now destruct f.
Qed.

(** A two-byte [bytes] payload on an extended id. *)
Lemma constructed_frame_packs_witness :
  GsUsb.pack_frame
    (GsUsbFrame_init 0x80000123 (DataBytes [Byte.xab; Byte.xcd]))
  = Returned [0; 0; 0; 0; 0x23; 0x01; 0x00; 0x80; 2; 0; 0; 0;
              0xAB; 0xCD; 0; 0; 0; 0; 0; 0; 0; 0; 0; 0].
Proof.
  apply (constructed_frame_packs 0x80000123
           (DataBytes [Byte.xab; Byte.xcd])).
  - cbn. lia.
  - cbn. lia.
  - exact I.
Defined.

(** ** Building and reading a CAN id *)

Lemma testbit_above (x n k : Z) :
  0 <= x < 2 ^ n -> 0 <= n <= k -> Z.testbit x k = false.
Proof.
  intros Hx Hk.
  destruct (Z.eq_dec x 0) as [ -> | Hnz ]; [ apply Z.bits_0 | ].
  apply Z.bits_above_log2; [ lia | ].
  assert (Z.log2 x < n) by (apply Z.log2_lt_pow2; lia). lia.
Qed.

(** X5. A CAN id built as [identifier | flags] reads back: for every
    identifier of at most 29 bits and every choice of the EFF, RTR and ERR
    flags OR-ed into it, [arbitration_id] is the identifier and
    [is_extended_id], [is_remote_frame], [is_error_frame] report exactly
    the flags chosen; the id built is in unsigned 32-bit range.  Whatever
    [can_id] is, [arbitration_id] is in [0, 2^29). *)
Theorem can_id_flags_roundtrip
    (identifier : Z) (extended remote error : bool)
    (e dlc ch fl rs : Z) (d : list Z) (ts : Z) :
  0 <= identifier < 2 ^ 29 ->
  let cid := make_can_id identifier extended remote error in
  let f := mkFrame e cid dlc ch fl rs d ts in
  arbitration_id f = identifier /\
  is_extended_id f = extended /\
  is_remote_frame f = remote /\
  is_error_frame f = error /\
  0 <= cid < 2 ^ 32 /\
  (forall any_id, 0 <= arbitration_id (mkFrame e any_id dlc ch fl rs d ts)
                  < 2 ^ 29).
Proof.
  intros Hid cid f.
  assert (Hbit : forall k, 29 <= k -> Z.testbit identifier k = false).
  { intros k Hk. apply (testbit_above identifier 29 k); lia. }
  assert (Hcid : forall k,
    Z.testbit cid k
    = Z.testbit identifier k
      || (extended && (k =? 31)) || (remote && (k =? 30))
      || (error && (k =? 29))).
  { intros k. unfold cid, make_can_id. rewrite !Z.lor_spec.
    assert (Hflag : forall (b : bool) (n : Z), 0 <= n ->
      Z.testbit (if b then 2 ^ n else 0) k = b && (k =? n)).
    { intros b n Hn. destruct b; cbn [andb].
      - rewrite Z.pow2_bits_eqb by lia. apply Z.eqb_sym.
      - apply Z.bits_0. }
    change CAN_EFF_FLAG with (2 ^ 31). change CAN_RTR_FLAG with (2 ^ 30).
    change CAN_ERR_FLAG with (2 ^ 29).
    now rewrite !Hflag by lia. }
  assert (Hmask : forall x, Z.land x CAN_EFF_MASK = x mod 2 ^ 29).
  { intros x. change CAN_EFF_MASK with (Z.ones 29). apply Z.land_ones. lia. }
  unfold f, is_extended_id, is_remote_frame, is_error_frame, arbitration_id.
  cbn [can_id].
  change CAN_EFF_FLAG with (2 ^ 31). change CAN_RTR_FLAG with (2 ^ 30).
  change CAN_ERR_FLAG with (2 ^ 29).
  rewrite !py_bool_land_pow2 by lia. rewrite !Hcid, !Hbit by lia.
  cbn [orb Z.eqb Pos.eqb]. rewrite !andb_false_r, !andb_true_r.
  cbn [orb]. rewrite !orb_false_r.
  split.
  { rewrite Hmask. apply Z.bits_inj'. intros k Hk.
    destruct (Z.lt_ge_cases k 29) as [Hlt | Hge].
    - rewrite Z.mod_pow2_bits_low by lia. rewrite Hcid.
      replace (k =? 31) with false by (symmetry; apply Z.eqb_neq; lia).
      replace (k =? 30) with false by (symmetry; apply Z.eqb_neq; lia).
      replace (k =? 29) with false by (symmetry; apply Z.eqb_neq; lia).
      now rewrite !andb_false_r, !orb_false_r.
    - rewrite Z.mod_pow2_bits_high by lia. symmetry. now apply Hbit. }
  do 3 (split; [ reflexivity | ]).
  split.
  { assert (Hnn : 0 <= cid).
    { unfold cid, make_can_id. rewrite !Z.lor_nonneg.
      unfold CAN_EFF_FLAG, CAN_RTR_FLAG, CAN_ERR_FLAG.
      destruct extended, remote, error; lia. }
    split; [ exact Hnn | ].
    destruct (Z.eq_dec cid 0) as [ -> | Hnz ]; [ lia | ].
    apply Z.log2_lt_pow2; [ lia | ].
    destruct (Z.lt_ge_cases (Z.log2 cid) 32) as [ | Hge ]; [ assumption | ].
    pose proof (Z.bit_log2 cid ltac:(lia)) as Htop.
    rewrite Hcid, Hbit in Htop by lia.
    replace (Z.log2 cid =? 31) with false in Htop
      by (symmetry; apply Z.eqb_neq; lia).
    replace (Z.log2 cid =? 30) with false in Htop
      by (symmetry; apply Z.eqb_neq; lia).
    replace (Z.log2 cid =? 29) with false in Htop
      by (symmetry; apply Z.eqb_neq; lia).
    rewrite !andb_false_r in Htop. discriminate. }
  intros any_id. rewrite Hmask. apply Z.mod_pos_bound. lia.
Qed.

(** The extended remote-request id of 0x123. *)
Lemma can_id_flags_roundtrip_witness :
  let f := mkFrame 0 (make_can_id 0x123 true true false) 0 0 0 0
             [0; 0; 0; 0; 0; 0; 0; 0] 0 in
  can_id f = 0xC0000123 /\
  arbitration_id f = 0x123 /\
  is_extended_id f = true /\
  is_remote_frame f = true /\
  is_error_frame f = false.
Proof.
  cbv zeta. split; [ reflexivity | ].
  destruct (can_id_flags_roundtrip 0x123 true true false 0 0 0 0 0
              [0; 0; 0; 0; 0; 0; 0; 0] 0)
    as (Ha & Hx & Hr & He & _); [ cbn; lia | ].
  repeat split; assumption.
Defined.

(** ** Bit timing and mode transfers *)

Lemma pack_5I (a b c d e : Z) :
  0 <= a < 2 ^ 32 -> 0 <= b < 2 ^ 32 -> 0 <= c < 2 ^ 32 ->
  0 <= d < 2 ^ 32 -> 0 <= e < 2 ^ 32 ->
  Struct.pack "5I" [a; b; c; d; e] = Returned (timing_payload a b c d e).
Proof.
  intros Ha Hb Hc Hd He. unfold Struct.pack.
  rewrite StructFacts.format_5I. cbn [Struct.pack_codes].
  rewrite !in_range_I by assumption. reflexivity.
Qed.

Lemma pack_raises_StructError (fmt : string) (args : list Z) (e : exn) :
  Struct.pack fmt args = Raised e -> e = StructError.
Proof.
  unfold Struct.pack. destruct (Struct.parse_format fmt None) as [ ks | ].
  - apply StructFacts.pack_codes_raises_StructError.
  - congruence.
Qed.

(** X6. [set_timing] on any device.  With all five parameters in
    unsigned 32-bit range it makes exactly one call, a BITTIMING control
    transfer of request type 0x41 with wValue 0 and wIndex 0 whose payload
    is 20 bytes and unpacks with "5I" to the five parameters in the order
    given; it returns None or propagates what the transfer raised.  It
    checks no 1..15, 1..8, 1..4 or 1..1024 bound of its docstring. *)
Theorem set_timing_outcomes
    (prop_seg phase_seg1 phase_seg2 sjw brp : Z)
    (dev : UsbDevice) (h : list call) :
  0 <= prop_seg < 2 ^ 32 ->
  0 <= phase_seg1 < 2 ^ 32 ->
  0 <= phase_seg2 < 2 ^ 32 ->
  0 <= sjw < 2 ^ 32 ->
  0 <= brp < 2 ^ 32 ->
  let payload := timing_payload prop_seg phase_seg1 phase_seg2 sjw brp in
  GsUsb.set_timing prop_seg phase_seg1 phase_seg2 sjw brp dev h
  = (match dev_ctrl_transfer dev h 0x41 _GS_USB_BREQ_BITTIMING 0 0
             (PayloadOut payload) with
     | Returned _ => Returned tt
     | Raised e => Raised e
     end,
     h ++ [CallCtrlTransfer 0x41 _GS_USB_BREQ_BITTIMING 0 0
             (PayloadOut payload)]) /\
  length payload = 20%nat /\
  Struct.unpack "5I" payload
  = Returned [prop_seg; phase_seg1; phase_seg2; sjw; brp].
Proof.
  intros H1 H2 H3 H4 H5 payload.
  pose proof (pack_5I _ _ _ _ _ H1 H2 H3 H4 H5) as Hpack.
  split; [ now apply set_timing_run | ].
  split; [ reflexivity | ].
  unfold Struct.pack in Hpack. rewrite StructFacts.format_5I in Hpack.
  pose proof (StructFacts.pack_codes_Returned_inv _ _ _ _ Hpack) as Hall.
  destruct (StructFacts.pack_unpack_codes _ _ 0 Hall)
    as (bs & Hbs & _ & Hback).
  rewrite Hpack in Hbs. injection Hbs as <-.
  change (timing_payload prop_seg phase_seg1 phase_seg2 sjw brp)
    with payload in Hback.
  unfold Struct.unpack. rewrite StructFacts.format_5I.
  change (Z.of_nat (length payload)
          =? Struct.calcsize_codes
               [Struct.CodeI; Struct.CodeI; Struct.CodeI; Struct.CodeI;
                Struct.CodeI] 0)
    with true.
  cbv iota. now rewrite Hback.
Qed.

(** Timing values outside the documented ranges are transferred as they
    are. *)
Lemma set_timing_outcomes_witness :
  GsUsb.set_timing 1 99 0 7 5000 (replying_device []) []
  = (Returned tt,
     [CallCtrlTransfer 0x41 _GS_USB_BREQ_BITTIMING 0 0
        (PayloadOut [1; 0; 0; 0; 99; 0; 0; 0; 0; 0; 0; 0; 7; 0; 0; 0;
                     0x88; 0x13; 0; 0])]).
Proof.
  apply (set_timing_outcomes 1 99 0 7 5000 (replying_device []) []);
    cbn; lia.
Defined.

(** X7. [set_timing] with a parameter outside unsigned 32-bit range (a
    negative number, or 2^32 and above) raises [struct.error] and makes
    no call on the device. *)
Theorem set_timing_out_of_range
    (prop_seg phase_seg1 phase_seg2 sjw brp : Z)
    (dev : UsbDevice) (h : list call) :
  Exists (fun v => v < 0 \/ 2 ^ 32 <= v)
    [prop_seg; phase_seg1; phase_seg2; sjw; brp] ->
  GsUsb.set_timing prop_seg phase_seg1 phase_seg2 sjw brp dev h
  = (Raised StructError, h).
Proof.
  intros Hbad.
  assert (Hpack :
    Struct.pack "5I" [prop_seg; phase_seg1; phase_seg2; sjw; brp]
    = Raised StructError).
  { destruct (Struct.pack "5I" [prop_seg; phase_seg1; phase_seg2; sjw; brp])
      as [ bs | e ] eqn:Hp.
    - exfalso. unfold Struct.pack in Hp.
      rewrite StructFacts.format_5I in Hp.
      apply StructFacts.pack_codes_Returned_inv in Hp.
      assert (Hall : Forall (fun v => 0 <= v < 2 ^ 32)
                       [prop_seg; phase_seg1; phase_seg2; sjw; brp]).
      { repeat match goal with
               | H : Forall2 _ (_ :: _) (_ :: _) |- _ =>
                   let Hr := fresh "Hr" in
                   let Ht := fresh "Ht" in
                   inversion H as [ | ? ? ? ? Hr Ht ]; subst; clear H;
                   apply (StructFacts.in_range_bound Struct.CodeI) in Hr
               end.
        repeat (apply Forall_cons; [ assumption | ]). apply Forall_nil. }
      apply Exists_exists in Hbad. destruct Hbad as (v & Hin & Hv).
      rewrite Forall_forall in Hall. specialize (Hall v Hin). lia.
    - f_equal. now apply pack_raises_StructError in Hp. }
  unfold GsUsb.set_timing, bind, lift. now rewrite Hpack.
Qed.

(** A negative prescaler. *)
Lemma set_timing_out_of_range_witness :
  GsUsb.set_timing 1 12 2 1 (-6) (replying_device []) []
  = (Raised StructError, []).
Proof.
  apply (set_timing_out_of_range 1 12 2 1 (-6) (replying_device []) []).
  do 4 apply Exists_cons_tl. apply Exists_cons_hd. lia.
Defined.

(** ** The calls [start] makes *)

(** X8. The call discipline of [start], for every platform, mode and
    device.  The first call is always [reset].  A kernel driver is
    detached only after [is_kernel_driver_active(0)] has returned True,
    and on a platform whose name contains "windows" in any letter case
    neither kernel-driver method is called.  At most one control transfer
    is made, and it is the last call; when [start] returns normally
    exactly one was made. *)
Theorem start_call_discipline
    (platform_system : string) (mode : Z) (dev : UsbDevice) (h : list call) :
  exists calls,
    snd (GsUsb.start platform_system mode dev h) = h ++ calls /\
    hd_error calls = Some CallReset /\
    (In (CallDetachKernelDriver 0) calls ->
     dev_is_kernel_driver_active dev (h ++ [CallReset]) 0 = Returned true) /\
    (str_in "windows" (lower platform_system) = true ->
     filter is_kernel_driver_call calls = []) /\
    (filter is_ctrl_transfer calls = [] \/
     exists c, filter is_ctrl_transfer calls = [c] /\
               last calls CallReset = c) /\
    (fst (GsUsb.start platform_system mode dev h) = Returned tt ->
     length (filter is_ctrl_transfer calls) = 1%nat).
Proof.
  unfold GsUsb.start, bind, reset, is_kernel_driver_active,
    detach_kernel_driver, lift, ctrl_transfer, ret.
  destruct (dev_reset dev h) as [ [] | e0 ].
  2:{ exists [CallReset]. cbn.
      repeat split; try tauto; try discriminate. intuition discriminate. }
  destruct (str_in "windows" (lower platform_system)) eqn:Hwin; cbn [negb].
  - destruct (Struct.pack "II" [1; Z.lor mode (Z.shiftl 1 4)])
      as [ payload | e1 ].
    + destruct (dev_ctrl_transfer dev (h ++ [CallReset]) 65
                  _GS_USB_BREQ_MODE 0 0 (PayloadOut payload)) as [ r | e2 ];
        eexists; (split; [ cbn [snd]; rewrite <- app_assoc; reflexivity | ]);
        cbn; repeat split; try tauto; try discriminate;
        try (intuition discriminate); right; eexists; split; reflexivity.
    + exists [CallReset]. cbn.
      repeat split; try tauto; try discriminate. intuition discriminate.
  - destruct (dev_is_kernel_driver_active dev (h ++ [CallReset]) 0)
      as [ [ | ] | e1 ] eqn:Hactive.
    + destruct (dev_detach_kernel_driver dev
                  ((h ++ [CallReset]) ++ [CallIsKernelDriverActive 0]) 0)
        as [ [] | e2 ].
      * destruct (Struct.pack "II" [1; Z.lor mode (Z.shiftl 1 4)])
          as [ payload | e3 ].
        -- destruct (dev_ctrl_transfer dev _ 65 _GS_USB_BREQ_MODE 0 0
                       (PayloadOut payload)) as [ r | e4 ];
             eexists;
             (split; [ cbn [snd]; rewrite <- !app_assoc; reflexivity | ]);
             cbn; repeat split; try tauto; try discriminate;
             try (intuition discriminate); right; eexists;
             split; reflexivity.
        -- eexists.
           split; [ cbn [snd]; rewrite <- !app_assoc; reflexivity | ].
           cbn. repeat split; try tauto; try discriminate.
      * eexists.
        split; [ cbn [snd]; rewrite <- !app_assoc; reflexivity | ].
        cbn. repeat split; try tauto; try discriminate.
    + destruct (Struct.pack "II" [1; Z.lor mode (Z.shiftl 1 4)])
        as [ payload | e3 ].
      * destruct (dev_ctrl_transfer dev _ 65 _GS_USB_BREQ_MODE 0 0
                    (PayloadOut payload)) as [ r | e4 ];
          eexists;
          (split; [ cbn [snd]; rewrite <- !app_assoc; reflexivity | ]);
          cbn; repeat split; try tauto; try discriminate;
          try (intuition discriminate); right; eexists;
          split; reflexivity.
      * eexists.
        split; [ cbn [snd]; rewrite <- !app_assoc; reflexivity | ].
        cbn. repeat split; try tauto; try discriminate.
        intuition discriminate.
    + eexists.
      split; [ cbn [snd]; rewrite <- !app_assoc; reflexivity | ].
      cbn. repeat split; try tauto; try discriminate.
      intuition discriminate.
Qed.

(** On Windows the calls are the reset and the mode transfer. *)
Lemma start_call_discipline_witness :
  exists calls,
    snd (GsUsb.start "Windows" GS_USB_MODE_NORMAL (replying_device []) [])
    = calls /\
    filter is_kernel_driver_call calls = [] /\
    length (filter is_ctrl_transfer calls) = 1%nat.
Proof.
  destruct (start_call_discipline "Windows" GS_USB_MODE_NORMAL
              (replying_device []) [])
    as (calls & Hcalls & _ & _ & Hwin & _ & Hone).
  exists calls. split; [ exact Hcalls | ].
  split; [ apply Hwin; reflexivity | apply Hone; reflexivity ].
Defined.

(** X9. The steps of [start] before the mode transfer are not
    best-effort: when [reset], [is_kernel_driver_active] or
    [detach_kernel_driver] raises, whatever the exception, [start] raises
    the same exception right there and has issued no control transfer. *)
Theorem start_prologue_failure_aborts
    (platform_system : string) (mode : Z)
    (dev : UsbDevice) (h h1 : list call) (e : exn) :
  start_prologue platform_system dev h = (Raised e, h1) ->
  GsUsb.start platform_system mode dev h = (Raised e, h1) /\
  exists calls, h1 = h ++ calls /\ filter is_ctrl_transfer calls = [].
Proof.
  intros Hprologue. split.
  - rewrite start_after_prologue. unfold bind at 1. now rewrite Hprologue.
  - destruct (start_prologue_calls platform_system dev h)
      as (calls & Hcalls & Hnone).
    rewrite Hprologue in Hcalls. cbn [snd] in Hcalls. eauto.
Qed.

(** [start] on an unplugged adapter stops at the reset. *)
Lemma start_prologue_failure_aborts_witness :
  GsUsb.start "Linux" GS_USB_MODE_NORMAL detached_device []
  = (Raised USBError, [CallReset]).
Proof.
  apply (start_prologue_failure_aborts "Linux" GS_USB_MODE_NORMAL
           detached_device [] [CallReset] USBError).
  reflexivity.
Defined.

Lemma lor_out_of_u32 (mode : Z) :
  mode < 0 \/ 2 ^ 32 <= mode ->
  Struct.in_range Struct.CodeI (Z.lor mode (Z.shiftl 1 4)) = false.
Proof.
  intros Hmode. cbn [Struct.in_range].
  apply andb_false_iff.
  destruct Hmode as [Hneg | Hbig].
  - left. apply Z.leb_gt. apply Z.lor_neg. now left.
  - right. apply Z.leb_gt.
    assert (Hnn : 0 <= Z.lor mode (Z.shiftl 1 4)).
    { apply Z.lor_nonneg. cbn. lia. }
    assert (Hlog : 32 <= Z.log2 (Z.lor mode (Z.shiftl 1 4))).
    { rewrite Z.log2_lor by (cbn; lia).
      assert (32 <= Z.log2 mode) by (apply Z.log2_le_pow2; lia). lia. }
    assert (Hpos : 0 < Z.lor mode (Z.shiftl 1 4)).
    { destruct (Z.eq_dec (Z.lor mode (Z.shiftl 1 4)) 0) as [H0 | ];
        [ | lia ].
      rewrite H0 in Hlog. cbn in Hlog. lia. }
    apply Z.log2_le_pow2 in Hlog; [ | exact Hpos ]. lia.
Qed.

(** X10. [start] with a mode outside unsigned 32-bit range (negative, or
    2^32 and above): once the reset and kernel-driver steps have
    returned, [pack] raises [struct.error] and [start] propagates it
    without issuing the mode transfer. *)
Theorem start_mode_out_of_range
    (platform_system : string) (mode : Z)
    (dev : UsbDevice) (h h1 : list call) :
  mode < 0 \/ 2 ^ 32 <= mode ->
  start_prologue platform_system dev h = (Returned tt, h1) ->
  GsUsb.start platform_system mode dev h = (Raised StructError, h1).
Proof.
  intros Hmode Hprologue.
  rewrite start_after_prologue. unfold bind at 1. rewrite Hprologue.
  unfold bind at 1, lift.
  assert (Hpack :
    Struct.pack "II" [1; Z.lor mode (Z.shiftl 1 4)] = Raised StructError).
  { unfold Struct.pack. rewrite StructFacts.format_II.
    cbn [Struct.pack_codes]. rewrite (lor_out_of_u32 mode Hmode).
    reflexivity. }
  now rewrite Hpack.
Qed.

(** Mode -1 on Windows: the reset is made, the transfer is not. *)
Lemma start_mode_out_of_range_witness :
  GsUsb.start "Windows" (-1) (replying_device []) []
  = (Raised StructError, [CallReset]).
Proof.
  apply (start_mode_out_of_range "Windows" (-1) (replying_device []) []
           [CallReset]).
  - left. lia.
  - reflexivity.
Defined.

(** ** Stop and device info on any device *)

(** X11. [stop] on any device makes exactly one call, the mode transfer
    with eight zero bytes, also when the device was never started.  It
    returns None when the transfer returns or raises
    [usb.core.USBError]; an exception of any other class propagates.  So
    [stop] never ends in [usb.core.USBError]. *)
Theorem stop_outcomes (dev : UsbDevice) (h : list call) :
  let transfer :=
    CallCtrlTransfer 0x41 _GS_USB_BREQ_MODE 0 0
      (PayloadOut [0; 0; 0; 0; 0; 0; 0; 0]) in
  GsUsb.stop dev h
  = (match dev_ctrl_transfer dev h 0x41 _GS_USB_BREQ_MODE 0 0
             (PayloadOut [0; 0; 0; 0; 0; 0; 0; 0]) with
     | Returned _ => Returned tt
     | Raised USBError => Returned tt
     | Raised e => Raised e
     end,
     h ++ [transfer]) /\
  fst (GsUsb.stop dev h) <> Raised USBError.
Proof.
  cbv zeta. split.
  - rewrite stop_run. change (mode_payload 0 0) with [0; 0; 0; 0; 0; 0; 0; 0].
    destruct (dev_ctrl_transfer _ _ _ _ _ _ _) as [ r | [ | | name ] ];
      reflexivity.
  - apply stop_never_raises_USBError.
Qed.

(** X12. [device_info] on any device makes exactly one call, the
    DEVICE_CONFIG control transfer asking for 12 bytes.  An exception of
    that transfer propagates, [usb.core.USBError] included; an answer
    whose length is not 12 makes [unpack] raise [struct.error]; an answer
    of 12 bytes gives the string "fw: ... hw: ...". *)
Theorem device_info_outcomes (dev : UsbDevice) (h : list call) :
  GsUsb.device_info dev h
  = (match dev_ctrl_transfer dev h 0xC1 _GS_USB_BREQ_DEVICE_CONFIG 0 0
             (LengthIn 12) with
     | Returned buf =>
         if (length buf =? 12)%nat then
           Returned
             (PyStr ("fw: "
                     ++ str_div10 (Struct.le_value (firstn 4 (skipn 4 buf)))
                     ++ " hw: "
                     ++ str_div10 (Struct.le_value (firstn 4 (skipn 8 buf)))))
         else Raised StructError
     | Raised e => Raised e
     end,
     h ++ [CallCtrlTransfer 0xC1 _GS_USB_BREQ_DEVICE_CONFIG 0 0
             (LengthIn 12)]).
Proof.
  unfold GsUsb.device_info, bind, ctrl_transfer, lift, ret.
  destruct (dev_ctrl_transfer _ _ _ _ _ _ _) as [ buf | e ];
    [ | reflexivity ].
  destruct (Nat.eqb_spec (length buf) 12) as [Hlen | Hlen].
  - rewrite (unpack_4B2I buf Hlen). reflexivity.
  - unfold Struct.unpack. rewrite StructFacts.format_4B2I.
    change (Struct.calcsize_codes
              [Struct.CodeB; Struct.CodeB; Struct.CodeB; Struct.CodeB;
               Struct.CodeI; Struct.CodeI] 0) with 12.
    destruct (Z.eqb_spec (Z.of_nat (length buf)) 12) as [Heq | _];
      [ lia | reflexivity ].
Qed.

(** ** The error decoder on short frames and on received frames *)

Lemma getitem_cases (l : list Z) (i : nat) :
  (exists v, getitem l i = Returned v) \/
  getitem l i = Raised (OtherException "IndexError").
Proof.
  unfold getitem. destruct (nth_error l i); eauto.
Qed.

(** X13. The error decoder returns exactly on frames with at least 8 data
    items; on a frame with fewer it raises [IndexError]. *)
Theorem parse_err_frame_short_data (f : GsUsbFrame) :
  ((8 <= length (data f))%nat ->
   exists r, Legacy.parse_err_frame f = Returned r) /\
  ((length (data f) < 8)%nat ->
   Legacy.parse_err_frame f = Raised (OtherException "IndexError")).
Proof.
  split.
  - intros Hlen. rewrite (parse_err_frame_table f Hlen). eauto.
  - intros Hlen.
    assert (H7 : getitem (data f) 7 = Raised (OtherException "IndexError")).
    { unfold getitem.
      destruct (nth_error (data f) 7) eqn:Hnth; [ | reflexivity ].
      assert (Hsome : nth_error (data f) 7 <> None) by congruence.
      apply nth_error_Some in Hsome. lia. }
    unfold Legacy.parse_err_frame.
    destruct (getitem_cases (data f) 1) as [ [v1 ->] | -> ];
      [ | reflexivity ].
    destruct (getitem_cases (data f) 2) as [ [v2 ->] | -> ];
      [ | reflexivity ].
    destruct (getitem_cases (data f) 3) as [ [v3 ->] | -> ];
      [ | reflexivity ].
    destruct (getitem_cases (data f) 6) as [ [v6 ->] | -> ];
      [ | reflexivity ].
    now rewrite H7.
Qed.

(** A frame whose data was cut to 4 items. *)
Lemma parse_err_frame_short_data_witness :
  Legacy.parse_err_frame (mkFrame 0 0x20000040 4 0 0 0 [0; 4; 0; 0] 0)
  = Raised (OtherException "IndexError").
Proof.
  apply (parse_err_frame_short_data
           (mkFrame 0 0x20000040 4 0 0 0 [0; 4; 0; 0] 0)).
  cbn. lia.
Defined.

Section WireBits.
Import Struct.

Lemma testbit_add_mul_256_low (b v k : Z) :
  0 <= b < 256 -> 0 <= k < 8 ->
  Z.testbit (b + 256 * v) k = Z.testbit b k.
Proof.
  intros Hb Hk.
  rewrite <- (Z.mod_pow2_bits_low (b + 256 * v) 8 k) by lia.
  change (2 ^ 8) with 256.
  rewrite (Z.mul_comm 256), Z.mod_add by lia.
  now rewrite Z.mod_small by lia.
Qed.

Lemma testbit_add_mul_256_high (b v m : Z) :
  0 <= b < 256 -> 0 <= m ->
  Z.testbit (b + 256 * v) (m + 8) = Z.testbit v m.
Proof.
  intros Hb Hm.
  rewrite <- Z.div_pow2_bits by lia. change (2 ^ 8) with 256.
  rewrite (Z.mul_comm 256), Z.div_add by lia.
  now rewrite Z.div_small by lia.
Qed.

(** Bit [k] of byte [i] of a little-endian value. *)
Lemma testbit_le_value (bs : list Z) :
  Forall (fun b => 0 <= b < 256) bs ->
  forall (i : nat) (k : Z),
    0 <= k < 8 ->
    Z.testbit (le_value bs) (8 * Z.of_nat i + k) = Z.testbit (nth i bs 0) k.
Proof.
  induction 1 as [ | b bs Hb _ IH ]; intros i k Hk.
  - cbn [le_value]. rewrite Z.bits_0. destruct i; cbn; now rewrite Z.bits_0.
  - cbn [le_value]. destruct i as [ | i ].
    + cbn [nth Z.of_nat]. rewrite Z.mul_0_r, Z.add_0_l.
      now apply testbit_add_mul_256_low.
    + cbn [nth].
      replace (8 * Z.of_nat (S i) + k) with ((8 * Z.of_nat i + k) + 8) by lia.
      rewrite testbit_add_mul_256_high by lia. now apply IH.
Qed.

End WireBits.

(** X14. The error report read off the wire.  For every buffer of 24
    bytes, the frame [read] decodes has 8 data items, so the error decoder
    returns on it, with tx and rx error counts the bytes at offsets 18 and
    19, and each flag decided by one bit of the buffer: BUSOFF and ACK by
    bits 6 and 5 of byte 4, OVERLOAD by bit 0 of byte 10, RX_TX_WARNING by
    bit 2 of byte 13 and otherwise RX_TX_PASSIVE by its bit 4, FORM,
    STUFF, BIT_DOMINANT and BIT_RECESSIVE by bits 1, 2, 3 and 4 of byte 14,
    CRC by bit 3 of byte 15.  The frame is an error frame exactly when bit
    5 of byte 7 is set. *)
Theorem error_report_from_wire (buf : list Z) :
  length buf = 24%nat ->
  Forall (fun b => 0 <= b < 256) buf ->
  let byte (i : nat) := nth i buf 0 in
  exists f error_code,
    GsUsb.unpack_frame buf = Returned f /\
    Legacy.parse_err_frame f
    = Returned (error_code, byte 18%nat, byte 19%nat) /\
    is_error_frame f = Z.testbit (byte 7%nat) 5 /\
    has_flag error_code Legacy.CAN_ERR_BUSOFF = Z.testbit (byte 4%nat) 6 /\
    has_flag error_code Legacy.CAN_ERR_ACK = Z.testbit (byte 4%nat) 5 /\
    has_flag error_code Legacy.CAN_ERR_OVERLOAD
      = Z.testbit (byte 10%nat) 0 /\
    has_flag error_code Legacy.CAN_ERR_RX_TX_WARNING
      = Z.testbit (byte 13%nat) 2 /\
    has_flag error_code Legacy.CAN_ERR_RX_TX_PASSIVE
      = negb (Z.testbit (byte 13%nat) 2) && Z.testbit (byte 13%nat) 4 /\
    has_flag error_code Legacy.CAN_ERR_FORM = Z.testbit (byte 14%nat) 1 /\
    has_flag error_code Legacy.CAN_ERR_STUFF = Z.testbit (byte 14%nat) 2 /\
    has_flag error_code Legacy.CAN_ERR_BIT_DOMINANT
      = Z.testbit (byte 14%nat) 3 /\
    has_flag error_code Legacy.CAN_ERR_BIT_RECESSIVE
      = Z.testbit (byte 14%nat) 4 /\
    has_flag error_code Legacy.CAN_ERR_CRC = Z.testbit (byte 15%nat) 3.
Proof.
  intros Hlen Hbytes byte.
  exists (frame_of_buffer buf), (error_flags_spec (frame_of_buffer buf)).
  split; [ now apply unpack_frame_24 | ].
  destruct buf as [ | b0 [ | b1 [ | b2 [ | b3 [ | b4 [ | b5 [ | b6 [ | b7
    [ | b8 [ | b9 [ | b10 [ | b11 [ | b12 [ | b13 [ | b14 [ | b15 [ | b16
    [ | b17 [ | b18 [ | b19 [ | b20 [ | b21 [ | b22 [ | b23 [ | ? ? ]
    ] ] ] ] ] ] ] ] ] ] ] ] ] ] ] ] ] ] ] ] ] ] ] ]; try discriminate Hlen.
  clear Hlen.
  repeat match goal with
         | H : Forall _ (_ :: _) |- _ =>
             let Hb := fresh "Hb" in
             apply Forall_cons_iff in H; destruct H as [Hb H]
         end.
  set (f := frame_of_buffer
              [b0; b1; b2; b3; b4; b5; b6; b7; b8; b9; b10; b11; b12; b13;
               b14; b15; b16; b17; b18; b19; b20; b21; b22; b23]).
  assert (Hid : forall (i : nat) (k : Z), 0 <= k < 8 ->
    Z.testbit (can_id f) (8 * Z.of_nat i + k)
    = Z.testbit (nth i [b4; b5; b6; b7] 0) k).
  { intros i k Hk. apply (testbit_le_value [b4; b5; b6; b7]);
      [ all_bytes | exact Hk ]. }
  split.
  { rewrite parse_err_frame_table by (cbn; lia). reflexivity. }
  pose proof (error_flags_spec_bits f) as Hbits. cbv zeta in Hbits.
  destruct Hbits as (Hbo & Hw & Hp & Ho & Hst & Hfo & Hack & Hrec & Hdom
                     & Hcrc & _).
  split.
  { unfold is_error_frame. change CAN_ERR_FLAG with (2 ^ 29).
    rewrite py_bool_land_pow2 by lia.
    exact (Hid 3%nat 5 ltac:(lia)). }
  rewrite Hbo, Hw, Hp, Ho, Hst, Hfo, Hack, Hrec, Hdom, Hcrc.
  assert (H6 : Z.testbit (can_id f) 6 = Z.testbit b4 6)
    by exact (Hid 0%nat 6 ltac:(lia)).
  assert (H5 : Z.testbit (can_id f) 5 = Z.testbit b4 5)
    by exact (Hid 0%nat 5 ltac:(lia)).
  rewrite H6, H5. repeat split.
Qed.

(** A bus-off error frame with a stuff error, tx count 5 and rx count 2. *)
Lemma error_report_from_wire_witness :
  exists f error_code,
    GsUsb.unpack_frame
      [0xFF; 0xFF; 0xFF; 0xFF; 0x40; 0; 0; 0x20; 8; 0; 0; 0;
       0; 0; 0x04; 0; 0; 0; 5; 2; 0; 0; 0; 0]
    = Returned f /\
    Legacy.parse_err_frame f = Returned (error_code, 5, 2) /\
    is_error_frame f = true /\
    has_flag error_code Legacy.CAN_ERR_BUSOFF = true.
Proof.
  destruct (error_report_from_wire
              [0xFF; 0xFF; 0xFF; 0xFF; 0x40; 0; 0; 0x20; 8; 0; 0; 0;
               0; 0; 0x04; 0; 0; 0; 5; 2; 0; 0; 0; 0])
    as (f & code & Hf & Hparse & Herr & Hbusoff & _).
  - reflexivity.
  - repeat constructor; lia.
  - exists f, code. repeat split; assumption.
Defined.

(** ** Printing a frame *)

Section Printing.

Lemma string_length_append (s1 s2 : string) :
  String.length (s1 ++ s2) = (String.length s1 + String.length s2)%nat.
Proof.
  induction s1 as [ | c s1 IH ]; cbn [String.append String.length].
  - reflexivity.
  - now rewrite IH.
Qed.

Lemma string_repeat_length (c : ascii) (n : nat) :
  String.length (string_repeat c n) = n.
Proof.
  induction n as [ | n IH ]; cbn [string_repeat String.length].
  - reflexivity.
  - now rewrite IH.
Qed.

(** Padding to a field of [w] a string that is not longer than [w]. *)
Lemma padded_length (c : ascii) (w : nat) (s : string) :
  (String.length s <= w)%nat ->
  String.length (string_repeat c (w - String.length s) ++ s) = w.
Proof.
  intros Hs. rewrite string_length_append, string_repeat_length. lia.
Qed.

Lemma hex_digit_roundtrip (d : Z) :
  0 <= d < 16 -> hex_digit_value (hex_digit_upper d) = d.
Proof.
  intros Hd. rewrite <- (Z2Nat.id d) at 2 by lia.
  unfold hex_digit_upper.
  assert (Hlt : (Z.to_nat d < 16)%nat) by lia.
  revert Hlt. generalize (Z.to_nat d). intros k Hk.
  do 16 (destruct k as [ | k ]; [ reflexivity | ]). lia.
Qed.

(** A number below 16^(k+1) prints with at most k+1 digits. *)
Lemma hex_loop_length (fuel : nat) :
  forall (n : Z) (acc : string) (k : nat),
    0 <= n < 16 ^ Z.of_nat (S k) ->
    (String.length (hex_loop fuel n acc) <= S k + String.length acc)%nat.
Proof.
  induction fuel as [ | fuel IH ]; intros n acc k Hn; cbn [hex_loop].
  - lia.
  - destruct (Z.eqb_spec (n / 16) 0) as [Hq | Hq]; cbn [String.length].
    + lia.
    + destruct k as [ | k ].
      * exfalso. apply Hq. apply Z.div_small. cbn in Hn. lia.
      * specialize (IH (n / 16)
                      (String (hex_digit_upper (n mod 16)) acc) k).
        cbn [String.length] in IH.
        assert (Hdiv : 0 <= n / 16 < 16 ^ Z.of_nat (S k)).
        { rewrite (Nat2Z.inj_succ (S k)), Z.pow_succ_r in Hn by lia.
          split; [ apply Z.div_pos; lia | ].
          apply Z.div_lt_upper_bound; lia. }
        specialize (IH Hdiv). lia.
Qed.

(** With enough fuel the digits printed denote the number. *)
Lemma hex_loop_value (fuel : nat) :
  forall (n : Z) (acc : string),
    0 <= n < 16 ^ Z.of_nat fuel ->
    hex_value (hex_loop fuel n acc)
    = n * 16 ^ Z.of_nat (String.length acc) + hex_value acc.
Proof.
  induction fuel as [ | fuel IH ]; intros n acc Hn; cbn [hex_loop].
  - cbn in Hn. assert (n = 0) by lia. subst n. lia.
  - rewrite Nat2Z.inj_succ, Z.pow_succ_r in Hn by lia.
    pose proof (Z.div_mod n 16 ltac:(lia)) as Hdm.
    pose proof (Z.mod_pos_bound n 16 ltac:(lia)) as Hmod.
    assert (Hacc' :
      hex_value (String (hex_digit_upper (n mod 16)) acc)
      = (n mod 16) * 16 ^ Z.of_nat (String.length acc) + hex_value acc).
    { cbn [hex_value]. now rewrite hex_digit_roundtrip by lia. }
    destruct (Z.eqb_spec (n / 16) 0) as [Hq | Hq].
    + rewrite Hacc'. rewrite Hq in Hdm. replace (n mod 16) with n by lia.
      reflexivity.
    + rewrite IH.
      * rewrite Hacc'. cbn [String.length].
        rewrite Nat2Z.inj_succ, Z.pow_succ_r by lia.
        set (p := 16 ^ Z.of_nat (String.length acc)).
        rewrite Hdm at 3. ring.
      * split; [ apply Z.div_pos; lia | ].
        apply Z.div_lt_upper_bound; lia.
Qed.

(** [hex_upper] never runs out of fuel: its digits denote the number. *)
Lemma hex_upper_value (n : Z) : 0 <= n -> hex_value (hex_upper n) = n.
Proof.
  intros Hn. unfold hex_upper. rewrite hex_loop_value.
  - cbn [String.length hex_value Z.of_nat]. lia.
  - split; [ exact Hn | ].
    rewrite Nat2Z.inj_succ, Z2Nat.id by apply Z.log2_nonneg.
    destruct (Z.eq_dec n 0) as [ -> | Hnz ].
    + cbn. lia.
    + pose proof (Z.log2_spec n ltac:(lia)) as [_ Hlt].
      eapply Z.lt_le_trans; [ exact Hlt | ].
      change 16 with (2 ^ 4). rewrite <- Z.pow_mul_r
        by (pose proof (Z.log2_nonneg n); lia).
      apply Z.pow_le_mono_r; pose proof (Z.log2_nonneg n); lia.
Qed.

Lemma hex_upper_length (n : Z) (k : nat) :
  0 <= n < 16 ^ Z.of_nat (S k) ->
  (String.length (hex_upper n) <= S k)%nat.
Proof.
  intros Hn. unfold hex_upper.
  pose proof (hex_loop_length (S (Z.to_nat (Z.log2 n))) n "" k Hn) as H.
  cbn [String.length] in H. lia.
Qed.

Lemma format_02X_length (b : Z) :
  0 <= b < 256 -> String.length (format_02X b) = 2%nat.
Proof.
  intros Hb. unfold format_02X.
  destruct (Z.ltb_spec b 0) as [ | _ ]; [ lia | ].
  apply padded_length. apply (hex_upper_length b 1). cbn. lia.
Qed.

Lemma format_8X_length (n : Z) :
  0 <= n < 2 ^ 32 -> String.length (format_8X n) = 8%nat.
Proof.
  intros Hn. unfold format_8X, format_X.
  destruct (Z.ltb_spec n 0) as [ | _ ]; [ lia | ].
  apply padded_length. apply (hex_upper_length n 7).
  change (16 ^ Z.of_nat 8) with (2 ^ 32). exact Hn.
Qed.

Lemma join_bytes_length (items : list string) :
  Forall (fun s => String.length s = 2%nat) items ->
  String.length (join " " items) = (3 * length items - 1)%nat.
Proof.
  induction 1 as [ | s rest Hs Hrest IH ].
  - reflexivity.
  - destruct rest as [ | s' rest ].
    + cbn [join length]. lia.
    + change (join " " (s :: s' :: rest))
        with (s ++ " " ++ join " " (s' :: rest))%string.
      rewrite !string_length_append, IH, Hs. cbn [String.length length]. lia.
Qed.

Lemma Forall_firstn {A} (P : A -> Prop) (n : nat) (l : list A) :
  Forall P l -> Forall P (firstn n l).
Proof.
  intros H. revert n.
  induction H as [ | x l Hx _ IH ]; intros [ | n ]; cbn [firstn];
    constructor; auto.
Qed.

Lemma py_str_digit_length (n : Z) :
  0 <= n <= 9 -> String.length (py_str n) = 1%nat.
Proof.
  intros Hn. rewrite <- (Z2Nat.id n) by lia.
  assert (Hlt : (Z.to_nat n < 10)%nat) by lia.
  revert Hlt. generalize (Z.to_nat n). intros k Hk.
  do 10 (destruct k as [ | k ]; [ reflexivity | ]). lia.
Qed.

End Printing.

Section PrintedDigits.

Lemma hex_digit_upper_is_hex (d : Z) :
  0 <= d < 16 -> is_hex_upper (hex_digit_upper d) = true.
Proof.
  intros Hd. unfold hex_digit_upper.
  assert (Hlt : (Z.to_nat d < 16)%nat) by lia.
  revert Hlt. generalize (Z.to_nat d). intros k Hk.
  do 16 (destruct k as [ | k ]; [ reflexivity | ]). lia.
Qed.

Lemma hex_digit_upper_nonzero (d : Z) :
  0 < d < 16 -> hex_digit_upper d <> "0"%char.
Proof.
  intros Hd. unfold hex_digit_upper.
  assert (Hlt : (0 < Z.to_nat d < 16)%nat) by lia.
  revert Hlt. generalize (Z.to_nat d). intros k Hk.
  destruct k as [ | k ]; [ lia | ].
  do 15 (destruct k as [ | k ]; [ discriminate | ]). lia.
Qed.

Lemma hex_loop_all_hex (fuel : nat) :
  forall (n : Z) (acc : string),
    0 <= n -> all_hex_upper acc = true ->
    all_hex_upper (hex_loop fuel n acc) = true.
Proof.
  induction fuel as [ | fuel IH ]; intros n acc Hn Hacc; cbn [hex_loop].
  - exact Hacc.
  - assert (Hacc' :
      all_hex_upper (String (hex_digit_upper (n mod 16)) acc) = true).
    { cbn [all_hex_upper]. rewrite Hacc, hex_digit_upper_is_hex.
      - reflexivity.
      - apply Z.mod_pos_bound. lia. }
    destruct (n / 16 =? 0); [ exact Hacc' | ].
    apply IH; [ apply Z.div_pos; lia | exact Hacc' ].
Qed.

(** With enough fuel the first digit printed of a positive number is
    not "0". *)
Lemma hex_loop_leading (fuel : nat) :
  forall (n : Z) (acc : string),
    0 < n < 16 ^ Z.of_nat fuel ->
    exists c rest, hex_loop fuel n acc = String c rest /\ c <> "0"%char.
Proof.
  induction fuel as [ | fuel IH ]; intros n acc Hn; cbn [hex_loop].
  - cbn in Hn. lia.
  - rewrite Nat2Z.inj_succ, Z.pow_succ_r in Hn by lia.
    pose proof (Z.div_mod n 16 ltac:(lia)) as Hdm.
    pose proof (Z.mod_pos_bound n 16 ltac:(lia)) as Hmod.
    destruct (Z.eqb_spec (n / 16) 0) as [Hq | Hq].
    + do 2 eexists. split; [ reflexivity | ].
      apply hex_digit_upper_nonzero. rewrite Hq in Hdm. lia.
    + apply IH. split.
      * assert (0 <= n / 16) by (apply Z.div_pos; lia). lia.
      * apply Z.div_lt_upper_bound; lia.
Qed.

Lemma hex_upper_fuel (n : Z) :
  0 <= n -> n < 16 ^ Z.of_nat (S (Z.to_nat (Z.log2 n))).
Proof.
  intros Hn.
  rewrite Nat2Z.inj_succ, Z2Nat.id by apply Z.log2_nonneg.
  destruct (Z.eq_dec n 0) as [ -> | Hnz ].
  - cbn. lia.
  - pose proof (Z.log2_spec n ltac:(lia)) as [_ Hlt].
    pose proof (Z.log2_nonneg n) as Hlog.
    eapply Z.lt_le_trans; [ exact Hlt | ].
    change 16 with (2 ^ 4). rewrite <- Z.pow_mul_r by lia.
    apply Z.pow_le_mono_r; lia.
Qed.

(** What [format(n, "X")] prints for [0 <= n]. *)
Lemma hex_upper_digits (n : Z) : 0 <= n -> hex_digits_of n (hex_upper n).
Proof.
  intros Hn. unfold hex_digits_of.
  split; [ now apply hex_loop_all_hex | ].
  split; [ now apply hex_upper_value | ].
  destruct (Z.eq_dec n 0) as [ -> | Hnz ].
  - left. reflexivity.
  - right. apply hex_loop_leading.
    split; [ lia | now apply hex_upper_fuel ].
Qed.

Lemma zero_filled_all_hex (k : nat) (s : string) :
  all_hex_upper (string_repeat "0" k ++ s) = all_hex_upper s.
Proof.
  induction k as [ | k IH ]; cbn [string_repeat String.append all_hex_upper].
  - reflexivity.
  - now rewrite IH.
Qed.

Lemma zero_filled_value (k : nat) (s : string) :
  hex_value (string_repeat "0" k ++ s) = hex_value s.
Proof.
  induction k as [ | k IH ]; cbn [string_repeat String.append hex_value].
  - reflexivity.
  - rewrite IH. change (hex_digit_value "0") with 0. lia.
Qed.

(** What [format(b, "02X")] prints for a byte. *)
Lemma format_02X_digits (b : Z) :
  0 <= b < 256 -> two_hex_digits_of b (format_02X b).
Proof.
  intros Hb. unfold two_hex_digits_of.
  split; [ now apply format_02X_length | ].
  unfold format_02X. destruct (Z.ltb_spec b 0) as [ | _ ]; [ lia | ].
  rewrite zero_filled_all_hex, zero_filled_value.
  split; [ apply hex_loop_all_hex; [ lia | reflexivity ] | ].
  apply hex_upper_value. lia.
Qed.

Lemma py_str_digit (n : Z) :
  0 <= n <= 9 ->
  py_str n = String (ascii_of_nat (48 + Z.to_nat n)) EmptyString.
Proof.
  intros Hn. rewrite <- (Z2Nat.id n) at 1 by lia.
  assert (Hlt : (Z.to_nat n < 10)%nat) by lia.
  revert Hlt. generalize (Z.to_nat n). intros k Hk.
  do 10 (destruct k as [ | k ]; [ reflexivity | ]). lia.
Qed.

Lemma map_format_02X_digits (bs : list Z) :
  Forall (fun b => 0 <= b < 256) bs ->
  Forall2 two_hex_digits_of bs (map format_02X bs).
Proof.
  induction 1 as [ | b bs Hb _ IH ]; cbn [map]; constructor.
  - now apply format_02X_digits.
  - exact IH.
Qed.

End PrintedDigits.

(** X15. The text of [str(frame)], for a frame with [can_dlc] from 0 to
    8.  It is, in this order: the arbitration id in upper-case
    hexadecimal without leading zeros, right-aligned with spaces in a
    field of exactly 8 characters (the flag bits of [can_id] are masked
    off, so the field never overflows, whatever [can_id] holds); three
    spaces; the dlc as one decimal digit in square brackets; two spaces;
    the data text.  For a remote frame the data text is "remote request"
    and no data byte is shown: 30 characters in all.  For any other frame
    with its 8 data bytes it is the first [can_dlc] bytes, each printed
    as exactly two upper-case hexadecimal digits denoting that byte, in
    order and separated by single spaces: 16 characters in all for dlc 0
    and 15 + 3 * dlc otherwise. *)
Theorem frame_str_columns (f : GsUsbFrame) :
  0 <= can_dlc f <= 8 ->
  exists id_digits data_text,
    GsUsbFrame_str f
    = (string_repeat " " (8 - String.length id_digits) ++ id_digits
       ++ "   ["
       ++ String (ascii_of_nat (48 + Z.to_nat (can_dlc f))) EmptyString
       ++ "]  " ++ data_text)%string /\
    (String.length id_digits <= 8)%nat /\
    hex_digits_of (arbitration_id f) id_digits /\
    (is_remote_frame f = true ->
     data_text = "remote request"%string /\
     String.length (GsUsbFrame_str f) = 30%nat) /\
    (is_remote_frame f = false ->
     length (data f) = 8%nat ->
     Forall (fun b => 0 <= b < 256) (data f) ->
     exists columns,
       data_text = join " " columns /\
       Forall2 two_hex_digits_of
         (firstn (Z.to_nat (can_dlc f)) (data f)) columns /\
       String.length (GsUsbFrame_str f)
       = if can_dlc f =? 0 then 16%nat
         else (15 + 3 * Z.to_nat (can_dlc f))%nat).
Proof.
  intros Hdlc.
  assert (Harb : 0 <= arbitration_id f < 2 ^ 29).
  { unfold arbitration_id. change CAN_EFF_MASK with (Z.ones 29).
    rewrite Z.land_ones by lia. apply Z.mod_pos_bound. lia. }
  assert (Hid8 : (String.length (hex_upper (arbitration_id f)) <= 8)%nat).
  { apply (hex_upper_length (arbitration_id f) 7).
    change (16 ^ Z.of_nat 8) with (2 ^ 32). lia. }
  assert (Hcol : format_8X (arbitration_id f)
                 = (string_repeat " "
                      (8 - String.length (hex_upper (arbitration_id f)))
                    ++ hex_upper (arbitration_id f))%string).
  { unfold format_8X, format_X.
    destruct (Z.ltb_spec (arbitration_id f) 0) as [ | _ ];
      [ lia | reflexivity ]. }
  assert (H8 : String.length (format_8X (arbitration_id f)) = 8%nat)
    by (apply format_8X_length; lia).
  pose proof (py_str_digit (can_dlc f) ltac:(lia)) as Hstr.
  pose proof (py_str_digit_length (can_dlc f) ltac:(lia)) as Hstrlen.
  assert (Hslice :
    slice_to (data f) (can_dlc f) = firstn (Z.to_nat (can_dlc f)) (data f)).
  { unfold slice_to.
    destruct (Z.leb_spec 0 (can_dlc f)); [ reflexivity | lia ]. }
  exists (hex_upper (arbitration_id f)),
    (if is_remote_frame f then "remote request"%string
     else join " "
            (map format_02X (firstn (Z.to_nat (can_dlc f)) (data f)))).
  split.
  { unfold GsUsbFrame_str. rewrite Hcol, Hstr, Hslice.
    now rewrite !string_append_assoc. }
  split; [ exact Hid8 | ].
  split; [ apply hex_upper_digits; lia | ].
  split.
  - intros Hremote. rewrite Hremote. split; [ reflexivity | ].
    unfold GsUsbFrame_str. rewrite Hremote.
    rewrite !string_length_append, H8, Hstrlen. reflexivity.
  - intros Hremote Hlen Hbytes. rewrite Hremote.
    exists (map format_02X (firstn (Z.to_nat (can_dlc f)) (data f))).
    split; [ reflexivity | ].
    assert (Hfirst :
      Forall (fun b => 0 <= b < 256)
        (firstn (Z.to_nat (can_dlc f)) (data f)))
      by now apply Forall_firstn.
    split.
    + now apply map_format_02X_digits.
    + unfold GsUsbFrame_str. rewrite Hremote, Hslice.
      rewrite !string_length_append, H8, Hstrlen.
      rewrite join_bytes_length.
      * rewrite length_map, length_firstn, Hlen.
        destruct (Z.eqb_spec (can_dlc f) 0) as [ -> | Hnz ].
        -- reflexivity.
        -- cbn [String.length]. lia.
      * apply Forall_map.
        apply (Forall_impl (fun b => String.length (format_02X b) = 2%nat)
                 format_02X_length Hfirst).
Qed.

(** A standard frame with two data bytes. *)
Lemma frame_str_columns_witness :
  GsUsbFrame_str (GsUsbFrame_init 0x123 (DataList [0xAB; 0x0C]))
  = "     123   [2]  AB 0C"%string /\
  exists id_digits data_text,
    GsUsbFrame_str (GsUsbFrame_init 0x123 (DataList [0xAB; 0x0C]))
    = (string_repeat " " (8 - String.length id_digits) ++ id_digits
       ++ "   [2]  " ++ data_text)%string /\
    hex_digits_of 0x123 id_digits /\
    exists columns,
      data_text = join " " columns /\
      Forall2 two_hex_digits_of [0xAB; 0x0C] columns.
Proof.
  split; [ reflexivity | ].
  destruct (frame_str_columns
              (GsUsbFrame_init 0x123 (DataList [0xAB; 0x0C])))
    as (id_digits & data_text & Htext & _ & Hid & _ & Hdata);
    [ cbn; lia | ].
  exists id_digits, data_text.
  split; [ exact Htext | ]. split; [ exact Hid | ].
  destruct Hdata as (columns & Hjoin & Hcols & _);
    [ reflexivity | reflexivity | repeat constructor; lia | ].
  exists columns. split; [ exact Hjoin | exact Hcols ].
Defined.

(** ** The timing rows of [set_bitrate] *)

(** The calls [set_bitrate] makes: the one BITTIMING transfer of the row,
    or none. *)
Lemma set_bitrate_calls (bitrate : Z) (dev : UsbDevice) (h : list call) :
  snd (GsUsb.set_bitrate bitrate dev h)
  = h ++ match timing_for_bitrate_spec bitrate with
         | Some (phase_seg1, phase_seg2, brp) =>
             [CallCtrlTransfer 0x41 _GS_USB_BREQ_BITTIMING 0 0
                (PayloadOut (timing_payload 1 phase_seg1 phase_seg2 1 brp))]
         | None => []
         end.
Proof.
  assert (Hrow : forall ps1 ps2 brp,
    Struct.pack "5I" [1; ps1; ps2; 1; brp]
    = Returned (timing_payload 1 ps1 ps2 1 brp) ->
    snd (bind (GsUsb.set_timing 1 ps1 ps2 1 brp) (fun _ => ret true) dev h)
    = h ++ [CallCtrlTransfer 0x41 _GS_USB_BREQ_BITTIMING 0 0
              (PayloadOut (timing_payload 1 ps1 ps2 1 brp))]).
  { intros ps1 ps2 brp Hpack. unfold bind at 1.
    rewrite (set_timing_run _ _ _ _ _ _ dev h Hpack).
    now destruct (dev_ctrl_transfer _ _ _ _ _ _ _). }
  unfold timing_for_bitrate_spec, timing_table_spec, GsUsb.set_bitrate.
  cbn [find fst snd option_map].
  rewrite !(Z.eqb_sym _ bitrate).
  repeat match goal with
         | |- context [bitrate =? ?k] =>
             destruct (Z.eqb_spec bitrate k) as [-> | ?];
             [ cbn [option_map snd]; apply Hrow; reflexivity | ]
         end.
  cbn [option_map ret snd]. now rewrite app_nil_r.
Qed.

Lemma timing_for_bitrate_spec_In (bitrate ps1 ps2 brp : Z) :
  timing_for_bitrate_spec bitrate = Some (ps1, ps2, brp) ->
  In (bitrate, (ps1, ps2, brp)) timing_table_spec.
Proof.
  unfold timing_for_bitrate_spec. intros H.
  destruct (find (fun row => fst row =? bitrate) timing_table_spec)
    as [ [b r] | ] eqn:Hfind; [ | discriminate ].
  cbn [option_map snd] in H. injection H as ->.
  apply find_some in Hfind. destruct Hfind as [Hin Heq].
  cbn [fst] in Heq. apply Z.eqb_eq in Heq. now subst b.
Qed.

(** X16. Whatever bitrate [set_bitrate] is given, every call it makes on
    the device is a BITTIMING control transfer whose five parameters lie
    in the ranges the docstring of [set_timing] gives: prop_seg is 1,
    phase_seg1 is in 1..15, phase_seg2 in 1..8, sjw in 1..4 and brp in
    1..1024; and it makes at most one call. *)
Theorem set_bitrate_rows_in_documented_ranges
    (bitrate : Z) (dev : UsbDevice) (h : list call) :
  exists calls,
    snd (GsUsb.set_bitrate bitrate dev h) = h ++ calls /\
    (length calls <= 1)%nat /\
    forall c, In c calls ->
      exists prop_seg phase_seg1 phase_seg2 sjw brp,
        c = CallCtrlTransfer 0x41 _GS_USB_BREQ_BITTIMING 0 0
              (PayloadOut
                 (timing_payload prop_seg phase_seg1 phase_seg2 sjw brp)) /\
        prop_seg = 1 /\
        1 <= phase_seg1 <= 15 /\
        1 <= phase_seg2 <= 8 /\
        1 <= sjw <= 4 /\
        1 <= brp <= 1024.
Proof.
  eexists. split; [ apply set_bitrate_calls | ].
  destruct (timing_for_bitrate_spec bitrate) as [ [ [ps1 ps2] brp] | ]
    eqn:Hrow.
  - split; [ cbn; lia | ].
    intros c [ <- | [] ].
    exists 1, ps1, ps2, 1, brp.
    split; [ reflexivity | ]. split; [ reflexivity | ].
    apply timing_for_bitrate_spec_In in Hrow.
    unfold timing_table_spec in Hrow. cbn [In] in Hrow.
    repeat (destruct Hrow as [ Hrow | Hrow ];
            [ injection Hrow as <- <- <- <-; lia | ]).
    destruct Hrow.
  - split; [ cbn; lia | ]. intros c [].
Qed.

(** The calls for 250000 bit/s. *)
Lemma set_bitrate_rows_in_documented_ranges_witness :
  exists calls,
    snd (GsUsb.set_bitrate 250000 (replying_device []) []) = [] ++ calls /\
    (length calls <= 1)%nat /\
    forall c, In c calls ->
      exists prop_seg phase_seg1 phase_seg2 sjw brp,
        c = CallCtrlTransfer 0x41 _GS_USB_BREQ_BITTIMING 0 0
              (PayloadOut
                 (timing_payload prop_seg phase_seg1 phase_seg2 sjw brp)) /\
        prop_seg = 1 /\
        1 <= phase_seg1 <= 15 /\
        1 <= phase_seg2 <= 8 /\
        1 <= sjw <= 4 /\
        1 <= brp <= 1024.
Proof.
  exact (set_bitrate_rows_in_documented_ranges 250000
           (replying_device []) []).
Defined.

(** X17. The bit rate each row of [set_bitrate] programs, with the bit
    time counted as 1 + prop_seg + phase_seg1 + phase_seg2 quanta of brp
    ticks of the 48 MHz clock.  For every accepted bitrate other than
    1000000 the row transferred gives exactly the bitrate asked for
    (83333 rounded down), with the sample point at 87.5 percent, or 86.6
    percent for 800000.  For 1000000 the row (11, 2, 3) has 15 quanta of
    3 ticks: 1066666 bit/s, not 1000000. *)
Theorem set_bitrate_nominal_bit_rates
    (bitrate : Z) (dev : UsbDevice) (h : list call) :
  In bitrate (map fst timing_table_spec) ->
  exists phase_seg1 phase_seg2 brp,
    snd (GsUsb.set_bitrate bitrate dev h)
    = h ++ [CallCtrlTransfer 0x41 _GS_USB_BREQ_BITTIMING 0 0
              (PayloadOut (timing_payload 1 phase_seg1 phase_seg2 1 brp))] /\
    (bitrate <> 1000000 ->
     nominal_bit_rate 1 phase_seg1 phase_seg2 brp = bitrate) /\
    (bitrate = 1000000 ->
     nominal_bit_rate 1 phase_seg1 phase_seg2 brp = 1066666) /\
    (bitrate < 800000 ->
     sample_point_permille 1 phase_seg1 phase_seg2 = 875) /\
    (800000 <= bitrate ->
     sample_point_permille 1 phase_seg1 phase_seg2 = 866).
Proof.
  intros Hin. rewrite set_bitrate_calls.
  unfold timing_table_spec in Hin. cbn [map fst In] in Hin.
  repeat (destruct Hin as [ <- | Hin ];
          [ match goal with
            | |- context [timing_for_bitrate_spec ?k] =>
                let r := eval vm_compute in (timing_for_bitrate_spec k) in
                change (timing_for_bitrate_spec k) with r
            end;
            cbv iota beta; do 3 eexists; split; [ reflexivity | ];
            repeat split; intros; try (vm_compute; reflexivity); lia | ]).
  destruct Hin.
Qed.

(** The 1 Mbit/s row, and the 500 kbit/s row. *)
Lemma set_bitrate_nominal_bit_rates_witness :
  (exists phase_seg1 phase_seg2 brp,
      snd (GsUsb.set_bitrate 1000000 (replying_device []) [])
      = [CallCtrlTransfer 0x41 _GS_USB_BREQ_BITTIMING 0 0
           (PayloadOut (timing_payload 1 phase_seg1 phase_seg2 1 brp))] /\
      nominal_bit_rate 1 phase_seg1 phase_seg2 brp = 1066666) /\
  (exists phase_seg1 phase_seg2 brp,
      snd (GsUsb.set_bitrate 500000 (replying_device []) [])
      = [CallCtrlTransfer 0x41 _GS_USB_BREQ_BITTIMING 0 0
           (PayloadOut (timing_payload 1 phase_seg1 phase_seg2 1 brp))] /\
      nominal_bit_rate 1 phase_seg1 phase_seg2 brp = 500000).
Proof.
  split.
  - destruct (set_bitrate_nominal_bit_rates 1000000 (replying_device []) [])
      as (ps1 & ps2 & brp & Hcall & _ & Hrate & _).
    + cbn. tauto.
    + exists ps1, ps2, brp. split; [ exact Hcall | now apply Hrate ].
  - destruct (set_bitrate_nominal_bit_rates 500000 (replying_device []) [])
      as (ps1 & ps2 & brp & Hcall & Hrate & _).
    + cbn. tauto.
    + exists ps1, ps2, brp. split; [ exact Hcall | apply Hrate; lia ].
Defined.
